(** * Canteen administration screens: inventory, menu and order sections

    A shallow embedding of the three React components under
    [src/components/admin] together with the tables of the hosted database
    they talk to.  Each component is a record of its [useState] cells; each
    handler is a function from the cells and the world (database tables and
    the toasts shown so far) to the new cells and the new world.  The reply
    of the database service to a request (served, or failed with an error)
    is an explicit argument of every handler that issues one. *)

From Stdlib Require Import QArith Qcanon.
From stdpp Require Import gmap strings list sorting.

Open Scope string_scope.
Open Scope list_scope.
Open Scope Z_scope.

(** ** JavaScript numbers held by the forms

    [parseInt] and [parseFloat] give a finite number or NaN.  The finite
    ones are kept as canonical rationals; the stock fields of the database
    are integers. *)

Inductive jsnum :=
  | Num (q : Qc)
  | NaN.

Definition IntNum (z : Z) : jsnum := Num (Q2Qc (inject_Z z)).

(** [Number.isInteger] *)
Definition isInteger (n : jsnum) : bool :=
  match n with
  | Num q => bool_decide (Qden (Qcanon.this q) = 1%positive)
  | NaN => false
  end.

(** The integer a number denotes, when it is one (what an integer column
    accepts). *)
Definition to_integer (n : jsnum) : option Z :=
  match n with
  | Num q => if isInteger n then Some (Qnum (Qcanon.this q)) else None
  | NaN => None
  end.

(** ** The database tables *)

Module Db.

(** Row of [menu_items]; the primary key [id] is the key of the table. *)
Record menu_items_row := {
  name : string;
  description : string;
  price : Qc;
  category : string;
  stock_quantity : Z;
  is_available : bool;
  image_url : option string;
}.

(** Row of [inventory_logs]. *)
Record inventory_logs_row := {
  log_id : string;
  menu_item_id : string;
  change_amount : Z;
  previous_stock : Z;
  new_stock : Z;
  reason : string;
  created_at : Z;
}.

Record t := {
  menu_items : gmap string menu_items_row;
  inventory_logs : list inventory_logs_row;
  (** [orders]: the [status] column, by order id *)
  orders : gmap string string;
}.

Definition with_menu_items (m : gmap string menu_items_row) (d : t) : t :=
  {| menu_items := m; inventory_logs := inventory_logs d; orders := orders d |}.

Definition with_orders (o : gmap string string) (d : t) : t :=
  {| menu_items := menu_items d; inventory_logs := inventory_logs d; orders := o |}.

(** [.from('menu_items').update({stock_quantity, is_available}).eq('id', i)] *)
Definition set_stock (newStock : Z) (avail : bool) (r : menu_items_row) : menu_items_row :=
  {| name := name r; description := description r; price := price r;
     category := category r; stock_quantity := newStock;
     is_available := avail; image_url := image_url r |}.

Definition update_stock (i : string) (newStock : Z) (avail : bool) (d : t) : t :=
  with_menu_items (alter (set_stock newStock avail) i (menu_items d)) d.

(** The object sent by the menu form, as JavaScript values. *)
Record payload := {
  p_name : string;
  p_description : string;
  p_price : jsnum;
  p_category : string;
  p_stock_quantity : jsnum;
  p_image_url : option string;
}.

(** The columns [price] (numeric) and [stock_quantity] (integer) accept a
    payload only when it holds a number, respectively an integer. *)
Definition typed (p : payload) : option (Qc * Z) :=
  match p_price p, to_integer (p_stock_quantity p) with
  | Num q, Some z => Some (q, z)
  | _, _ => None
  end.

Definition set_fields (p : payload) (q : Qc) (z : Z) (avail : bool) : menu_items_row :=
  {| name := p_name p; description := p_description p; price := q;
     category := p_category p; stock_quantity := z; is_available := avail;
     image_url := p_image_url p |}.

(** [.from('menu_items').update({...}).eq('id', i)]; [is_available] is
    not in the object and keeps its value. *)
Definition update_item (i : string) (p : payload) (d : t) : option t :=
  match typed p with
  | Some (q, z) =>
      Some (with_menu_items
              (alter (λ r, set_fields p q z (is_available r)) i (menu_items d)) d)
  | None => None
  end.

(** What the database fills in on an insert: the new primary key and the
    default of [is_available]. *)
Record generated := {
  new_id : string;
  default_is_available : bool;
}.

(** [.from('menu_items').insert({...})]; a key already in the table is
    refused. *)
Definition insert_item (g : generated) (p : payload) (d : t) : option t :=
  match typed p, menu_items d !! new_id g with
  | Some (q, z), None =>
      Some (with_menu_items
              (<[new_id g := set_fields p q z (default_is_available g)]> (menu_items d)) d)
  | _, _ => None
  end.

(** [.from('menu_items').delete().eq('id', i)] *)
Definition delete_item (i : string) (d : t) : t :=
  with_menu_items (delete i (menu_items d)) d.

(** [.from('orders').update({status}).eq('id', i)] *)
Definition update_status (i : string) (newStatus : string) (d : t) : t :=
  with_orders (alter (λ _, newStatus) i (orders d)) d.

End Db.

(** The service either serves a request or answers with an error, which
    carries a message. *)
Inductive Reply :=
  | Served
  | Failed (message : string).

(** A string is falsy exactly when it is empty. *)
Definition falsy (s : string) : bool := bool_decide (s = "").

(** ** Toasts *)

(** [variant]: absent (the plain toast) or ['destructive'] *)
Inductive Variant := plain | destructive.

Record Toast := {
  title : string;
  toast_description : string;
  variant : Variant;
}.

Record World := {
  db : Db.t;
  toasts : list Toast;
}.

Definition toast (t : Toast) (w : World) : World :=
  {| db := db w; toasts := toasts w ++ [t] |}.

Definition with_db (d : Db.t) (w : World) : World :=
  {| db := d; toasts := toasts w |}.

(** ** AdminInventorySection *)

Module Inventory.

(** What [.select('id, name, stock_quantity, category')] returns per row. *)
Record Item := {
  id : string;
  name : string;
  stock_quantity : Z;
  category : string;
}.

(** What [.select('*, menu_items (name)')] returns per log row: the row
    and the embedded name of the item it references ([null] when no item
    has that id). *)
Record Log := {
  row : Db.inventory_logs_row;
  menu_items : option string;
}.

Record State := {
  menuItems : list Item;
  inventoryLogs : list Log;
  loading : bool;
  selectedItem : option Item;
  adjustmentAmount : Z;
  adjustmentReason : string;
  isDialogOpen : bool;
}.

(** [useState] initial values *)
Definition initial : State :=
  {| menuItems := []; inventoryLogs := []; loading := true;
     selectedItem := None; adjustmentAmount := 0; adjustmentReason := "";
     isDialogOpen := false |}.

(** *** The two queries of [fetchData] *)

Definition stock_ascending (a b : Item) : Prop :=
  stock_quantity a ≤ stock_quantity b.

Definition newest_first (a b : Log) : Prop :=
  Db.created_at (row b) ≤ Db.created_at (row a).

#[global] Instance stock_ascending_dec a b : Decision (stock_ascending a b).
Proof. unfold stock_ascending. apply _. Defined.

#[global] Instance newest_first_dec a b : Decision (newest_first a b).
Proof. unfold newest_first. apply _. Defined.

Definition project (kv : string * Db.menu_items_row) : Item :=
  {| id := kv.1; name := Db.name kv.2;
     stock_quantity := Db.stock_quantity kv.2; category := Db.category kv.2 |}.

Definition select_items (d : Db.t) : list Item :=
  merge_sort stock_ascending (project <$> map_to_list (Db.menu_items d)).

Definition embed (d : Db.t) (r : Db.inventory_logs_row) : Log :=
  {| row := r; menu_items := Db.name <$> Db.menu_items d !! Db.menu_item_id r |}.

Definition select_logs (d : Db.t) : list Log :=
  take 20 (merge_sort newest_first (embed d <$> Db.inventory_logs d)).

Definition load_failed : Toast :=
  {| title := "Error"; toast_description := "Failed to load inventory data";
     variant := destructive |}.

Definition set_loading (b : bool) (s : State) : State :=
  {| menuItems := menuItems s; inventoryLogs := inventoryLogs s; loading := b;
     selectedItem := selectedItem s; adjustmentAmount := adjustmentAmount s;
     adjustmentReason := adjustmentReason s; isDialogOpen := isDialogOpen s |}.

Definition set_data (items : list Item) (logs : list Log) (s : State) : State :=
  {| menuItems := items; inventoryLogs := logs; loading := loading s;
     selectedItem := selectedItem s; adjustmentAmount := adjustmentAmount s;
     adjustmentReason := adjustmentReason s; isDialogOpen := isDialogOpen s |}.

Definition fetchData (items_reply logs_reply : Reply) (s : State) (w : World)
  : State * World :=
  match items_reply, logs_reply with
  | Served, Served =>
      (set_loading false (set_data (select_items (db w)) (select_logs (db w)) s), w)
  | _, _ => (set_loading false s, toast load_failed w)
  end.

(** *** [handleAdjustment] *)

Definition invalid_input : Toast :=
  {| title := "Invalid Input";
     toast_description := "Please provide a reason for the adjustment";
     variant := destructive |}.

Definition invalid_adjustment : Toast :=
  {| title := "Invalid Adjustment";
     toast_description := "Stock quantity cannot be negative";
     variant := destructive |}.

Definition stock_updated (item : Item) : Toast :=
  {| title := "Stock Updated";
     toast_description := ("Stock for " ++ name item ++ " has been updated")%string;
     variant := plain |}.

Definition update_failed : Toast :=
  {| title := "Error"; toast_description := "Failed to update stock";
     variant := destructive |}.

(** The four setters that close the dialog after a successful update. *)
Definition close_dialog (s : State) : State :=
  {| menuItems := menuItems s; inventoryLogs := inventoryLogs s;
     loading := loading s; selectedItem := None; adjustmentAmount := 0;
     adjustmentReason := ""; isDialogOpen := false |}.

(** The replies to the requests one call may issue: the update, then the
    two queries of the refresh. *)
Record Replies := {
  update_reply : Reply;
  items_reply : Reply;
  logs_reply : Reply;
}.

Definition handleAdjustment (net : Replies) (s : State) (w : World)
  : State * World :=
  match selectedItem s with
  | None => (s, toast invalid_input w)
  | Some item =>
      if falsy (adjustmentReason s) then (s, toast invalid_input w)
      else
        let newStock := stock_quantity item + adjustmentAmount s in
        if bool_decide (newStock < 0) then (s, toast invalid_adjustment w)
        else
          match update_reply net with
          | Failed _ => (s, toast update_failed w)
          | Served =>
              let w1 :=
                with_db (Db.update_stock (id item) newStock
                           (bool_decide (newStock > 0)) (db w)) w in
              let w2 := toast (stock_updated item) w1 in
              fetchData (items_reply net) (logs_reply net) (close_dialog s) w2
          end
  end.

(** *** Low stock alert *)

Definition lowStockItems (menuItems : list Item) : list Item :=
  filter (λ item, stock_quantity item ≤ 10) menuItems.

(** *** Dialog events *)

(** "Adjust Stock" button of a card: selects the item; the trigger opens
    the dialog. *)
Definition openDialog (item : Item) (s : State) : State :=
  {| menuItems := menuItems s; inventoryLogs := inventoryLogs s;
     loading := loading s; selectedItem := Some item;
     adjustmentAmount := adjustmentAmount s;
     adjustmentReason := adjustmentReason s; isDialogOpen := true |}.

(** [setAdjustmentAmount(parseInt(e.target.value) || 0)]: the argument is
    the result of [parseInt], [None] for NaN. *)
Definition setAdjustmentAmount (parsed : option Z) (s : State) : State :=
  {| menuItems := menuItems s; inventoryLogs := inventoryLogs s;
     loading := loading s; selectedItem := selectedItem s;
     adjustmentAmount := default 0 parsed;
     adjustmentReason := adjustmentReason s; isDialogOpen := isDialogOpen s |}.

Definition setAdjustmentReason (v : string) (s : State) : State :=
  {| menuItems := menuItems s; inventoryLogs := inventoryLogs s;
     loading := loading s; selectedItem := selectedItem s;
     adjustmentAmount := adjustmentAmount s;
     adjustmentReason := v; isDialogOpen := isDialogOpen s |}.

End Inventory.

(** ** AdminMenuSection *)

Module Menu.

(** What [.select('*')] returns per row. *)
Record Item := {
  id : string;
  row : Db.menu_items_row;
}.

Record FormData := {
  name : string;
  description : string;
  price : jsnum;
  category : string;
  stock_quantity : jsnum;
  image_url : string;
}.

Record State := {
  menuItems : list Item;
  loading : bool;
  isDialogOpen : bool;
  editingItem : option Item;
  formData : FormData;
}.

Definition emptyForm : FormData :=
  {| name := ""; description := ""; price := IntNum 0; category := "breakfast";
     stock_quantity := IntNum 0; image_url := "" |}.

Definition initial : State :=
  {| menuItems := []; loading := true; isDialogOpen := false;
     editingItem := None; formData := emptyForm |}.

(** *** [menuItemSchema] *)

Inductive ZodIssueCode :=
  | too_small
  | too_big
  | invalid_type
  | invalid_enum_value
  | invalid_union.

Record ZodIssue := {
  code : ZodIssueCode;
  path : string;
}.

Definition categories : list string :=
  ["breakfast"; "lunch"; "dinner"; "snacks"; "beverages"; "desserts"].

Definition when (b : bool) (i : ZodIssue) : list ZodIssue :=
  if b then [i] else [].

(** [z.string().min(2).max(100)] *)
Definition check_name (v : string) : list ZodIssue :=
  when (String.length v <? 2)%nat {| code := too_small; path := "name" |}
  ++ when (100 <? String.length v)%nat {| code := too_big; path := "name" |}.

(** [z.string().max(500)] *)
Definition check_description (v : string) : list ZodIssue :=
  when (500 <? String.length v)%nat {| code := too_big; path := "description" |}.

(** [z.number().min(0)] *)
Definition check_price (v : jsnum) : list ZodIssue :=
  match v with
  | NaN => [{| code := invalid_type; path := "price" |}]
  | Num q => when (bool_decide (q < 0)%Qc) {| code := too_small; path := "price" |}
  end.

(** [z.enum([...])] *)
Definition check_category (v : string) : list ZodIssue :=
  when (bool_decide (v ∉ categories)) {| code := invalid_enum_value; path := "category" |}.

(** [z.number().int().min(0)] *)
Definition check_stock_quantity (v : jsnum) : list ZodIssue :=
  match v with
  | NaN => [{| code := invalid_type; path := "stock_quantity" |}]
  | Num q =>
      when (negb (isInteger v)) {| code := invalid_type; path := "stock_quantity" |}
      ++ when (bool_decide (q < 0)%Qc) {| code := too_small; path := "stock_quantity" |}
  end.

Section Schema.

(** Whether [new URL(v)] accepts the string. *)
Variable is_url : string → bool.

(** [z.string().url().optional().or(z.literal(''))] *)
Definition check_image_url (v : string) : list ZodIssue :=
  when (negb (is_url v || falsy v)) {| code := invalid_union; path := "image_url" |}.

(** The issues [menuItemSchema.parse] throws with, in order; none when
    it returns. *)
Definition menuItemSchema (f : FormData) : list ZodIssue :=
  check_name (name f) ++ check_description (description f)
  ++ check_price (price f) ++ check_category (category f)
  ++ check_stock_quantity (stock_quantity f) ++ check_image_url (image_url f).

End Schema.

(** *** [fetchMenuItems] *)

(** [.order('category').order('name')] *)
Definition category_then_name (a b : Item) : Prop :=
  match String.compare (Db.category (row a)) (Db.category (row b)) with
  | Lt => True
  | Eq => String.le (Db.name (row a)) (Db.name (row b))
  | Gt => False
  end.

#[global] Instance category_then_name_dec a b : Decision (category_then_name a b).
Proof. unfold category_then_name. destruct (String.compare _ _); apply _. Defined.

Definition select_all (d : Db.t) : list Item :=
  merge_sort category_then_name
    ((λ kv, {| id := kv.1; row := kv.2 |}) <$> map_to_list (Db.menu_items d)).

Definition load_failed : Toast :=
  {| title := "Error"; toast_description := "Failed to load menu items";
     variant := destructive |}.

Definition set_loading (b : bool) (s : State) : State :=
  {| menuItems := menuItems s; loading := b; isDialogOpen := isDialogOpen s;
     editingItem := editingItem s; formData := formData s |}.

Definition setMenuItems (l : list Item) (s : State) : State :=
  {| menuItems := l; loading := loading s; isDialogOpen := isDialogOpen s;
     editingItem := editingItem s; formData := formData s |}.

Definition fetchMenuItems (reply : Reply) (s : State) (w : World) : State * World :=
  match reply with
  | Served => (set_loading false (setMenuItems (select_all (db w)) s), w)
  | Failed _ => (set_loading false s, toast load_failed w)
  end.

(** *** Form and dialog *)

Definition setIsDialogOpen (b : bool) (s : State) : State :=
  {| menuItems := menuItems s; loading := loading s; isDialogOpen := b;
     editingItem := editingItem s; formData := formData s |}.

Definition setFormData (f : FormData) (s : State) : State :=
  {| menuItems := menuItems s; loading := loading s;
     isDialogOpen := isDialogOpen s; editingItem := editingItem s;
     formData := f |}.

Definition resetForm (s : State) : State :=
  {| menuItems := menuItems s; loading := loading s;
     isDialogOpen := isDialogOpen s; editingItem := None;
     formData := emptyForm |}.

Definition handleEdit (item : Item) (s : State) : State :=
  {| menuItems := menuItems s; loading := loading s; isDialogOpen := true;
     editingItem := Some item;
     formData :=
       {| name := Db.name (row item); description := Db.description (row item);
          price := Num (Db.price (row item)); category := Db.category (row item);
          stock_quantity := IntNum (Db.stock_quantity (row item));
          image_url := default "" (Db.image_url (row item)) |} |}.

(** *** [handleSubmit] *)

(** The object handed to [update] and [insert]:
    [image_url: formData.image_url || null]. *)
Definition payload_of (f : FormData) : Db.payload :=
  {| Db.p_name := name f; Db.p_description := description f;
     Db.p_price := price f; Db.p_category := category f;
     Db.p_stock_quantity := stock_quantity f;
     Db.p_image_url := if falsy (image_url f) then None else Some (image_url f) |}.

Definition item_updated : Toast :=
  {| title := "Menu Item Updated";
     toast_description := "The menu item has been updated successfully";
     variant := plain |}.

Definition item_added : Toast :=
  {| title := "Menu Item Added";
     toast_description := "New menu item has been added successfully";
     variant := plain |}.

Definition validation_error (message : string) : Toast :=
  {| title := "Validation Error"; toast_description := message;
     variant := destructive |}.

(** [error.message || 'Failed to save menu item'] *)
Definition save_failed (message : string) : Toast :=
  {| title := "Error";
     toast_description := if falsy message then "Failed to save menu item" else message;
     variant := destructive |}.

(** The replies to the write and to the refresh that follows it, and the
    message of the error the service answers with when a column or the
    primary key refuses the row. *)
Record Replies := {
  write_reply : Reply;
  fetch_reply : Reply;
  refusal : string;
}.

(** The service's answer to a write: the transport may fail, and a column
    may refuse the value. *)
Definition answer (net : Replies) (written : option Db.t) : Db.t + string :=
  match write_reply net with
  | Failed message => inr message
  | Served =>
      match written with
      | Some d => inl d
      | None => inr (refusal net)
      end
  end.

Section Submit.

Variable is_url : string → bool.
(** The message zod attaches to an issue. *)
Variable message : ZodIssue → string.

Definition handleSubmit (net : Replies) (g : Db.generated) (s : State) (w : World)
  : State * World :=
  match menuItemSchema is_url (formData s) with
  | issue :: _ => (s, toast (validation_error (message issue)) w)
  | [] =>
      let p := payload_of (formData s) in
      let '(written, done) :=
        match editingItem s with
        | Some item => (Db.update_item (id item) p (db w), item_updated)
        | None => (Db.insert_item g p (db w), item_added)
        end in
      match answer net written with
      | inr msg => (s, toast (save_failed msg) w)
      | inl d =>
          fetchMenuItems (fetch_reply net)
            (resetForm (setIsDialogOpen false s)) (toast done (with_db d w))
      end
  end.

End Submit.

(** *** [handleDelete] *)

Definition item_deleted : Toast :=
  {| title := "Item Deleted";
     toast_description := "Menu item has been deleted successfully";
     variant := plain |}.

Definition delete_failed : Toast :=
  {| title := "Error"; toast_description := "Failed to delete menu item";
     variant := destructive |}.

(** [confirmed] is the answer to the [confirm] box. *)
Definition handleDelete (confirmed : bool) (net : Replies) (i : string)
    (s : State) (w : World) : State * World :=
  if negb confirmed then (s, w)
  else
    match write_reply net with
    | Failed _ => (s, toast delete_failed w)
    | Served =>
        fetchMenuItems (fetch_reply net) s
          (toast item_deleted (with_db (Db.delete_item i (db w)) w))
    end.

End Menu.

(** ** AdminOrdersSection

    Its cells hold rows of [orders] joined with tables that no other screen
    reads; of the component, only what it does to the world is kept. *)

Module Orders.

Definition order_updated (newStatus : string) : Toast :=
  {| title := "Order Updated";
     toast_description := ("Order status updated to " ++ newStatus)%string;
     variant := plain |}.

Definition update_failed : Toast :=
  {| title := "Error"; toast_description := "Failed to update order status";
     variant := destructive |}.

Definition load_failed : Toast :=
  {| title := "Error"; toast_description := "Failed to load orders";
     variant := destructive |}.

Definition fetchOrders (reply : Reply) (w : World) : World :=
  match reply with
  | Served => w
  | Failed _ => toast load_failed w
  end.

Definition updateOrderStatus (reply fetch_reply : Reply)
    (orderId newStatus : string) (w : World) : World :=
  match reply with
  | Failed _ => toast update_failed w
  | Served =>
      fetchOrders fetch_reply
        (toast (order_updated newStatus)
           (with_db (Db.update_status orderId newStatus (db w)) w))
  end.

End Orders.

(** ** Vocabulary of the properties *)

Import Inventory.

(** The four ways a call of [handleAdjustment] can go. *)
Inductive adjustment_outcome (net : Replies) (s : State) (w : World)
  : State * World → Prop :=
  | no_reason :
      selectedItem s = None ∨ adjustmentReason s = "" →
      adjustment_outcome net s w (s, toast invalid_input w)
  | negative item :
      selectedItem s = Some item → adjustmentReason s ≠ "" →
      stock_quantity item + adjustmentAmount s < 0 →
      adjustment_outcome net s w (s, toast invalid_adjustment w)
  | refused item msg :
      selectedItem s = Some item → adjustmentReason s ≠ "" →
      0 ≤ stock_quantity item + adjustmentAmount s →
      update_reply net = Failed msg →
      adjustment_outcome net s w (s, toast update_failed w)
  | updated item :
      selectedItem s = Some item → adjustmentReason s ≠ "" →
      0 ≤ stock_quantity item + adjustmentAmount s →
      update_reply net = Served →
      adjustment_outcome net s w
        (fetchData (items_reply net) (logs_reply net) (close_dialog s)
           (toast (stock_updated item)
              (with_db
                 (Db.update_stock (id item)
                    (stock_quantity item + adjustmentAmount s)
                    (bool_decide (stock_quantity item + adjustmentAmount s > 0))
                    (db w)) w))).

Definition stock_never_negative (d : Db.t) : Prop :=
  map_Forall (λ _ r, 0 ≤ Db.stock_quantity r) (Db.menu_items d).

(** The handlers of the three screens that write to the database. *)
Inductive WritePath :=
  | adjust_stock (net : Inventory.Replies) (s : Inventory.State)
  | submit_menu_item (net : Menu.Replies) (g : Db.generated) (s : Menu.State)
  | delete_menu_item (confirmed : bool) (net : Menu.Replies) (i : string)
      (s : Menu.State)
  | update_order_status (reply fetch_reply : Reply) (orderId newStatus : string).

Section Writes.

Variable is_url : string → bool.
Variable message : Menu.ZodIssue → string.

Definition write (w : World) (p : WritePath) : World :=
  match p with
  | adjust_stock net s => (Inventory.handleAdjustment net s w).2
  | submit_menu_item net g s => (Menu.handleSubmit is_url message net g s w).2
  | delete_menu_item confirmed net i s => (Menu.handleDelete confirmed net i s w).2
  | update_order_status reply fetch_reply orderId newStatus =>
      Orders.updateOrderStatus reply fetch_reply orderId newStatus w
  end.

Definition writes (w : World) (ps : list WritePath) : World := foldl write w ps.

End Writes.

(** ** Sample tables and sessions *)

Module Fixture.

Definition chapati : Db.menu_items_row :=
  {| Db.name := "Chapati"; Db.description := "Flat bread";
     Db.price := Q2Qc (3 # 2); Db.category := "lunch";
     Db.stock_quantity := 10; Db.is_available := true;
     Db.image_url := None |}.

Definition tea : Db.menu_items_row :=
  {| Db.name := "Tea"; Db.description := "Milk tea";
     Db.price := Q2Qc (1 # 2); Db.category := "beverages";
     Db.stock_quantity := 3; Db.is_available := true;
     Db.image_url := Some "https://example.com/tea.jpg" |}.

Definition tables : Db.t :=
  {| Db.menu_items := <["m2" := tea]> {["m1" := chapati]};
     Db.inventory_logs := []; Db.orders := ∅ |}.

Definition world : World := {| db := tables; toasts := [] |}.

Definition served : Inventory.Replies :=
  {| Inventory.update_reply := Served; Inventory.items_reply := Served;
     Inventory.logs_reply := Served |}.

(** The card of "m1" as a session that loaded the page sees it. *)
Definition chapati_card : Inventory.Item :=
  {| Inventory.id := "m1"; Inventory.name := "Chapati";
     Inventory.stock_quantity := 10; Inventory.category := "lunch" |}.

(** A session that loaded the page from [w], opened the dialog of a card
    and typed an amount and a reason. *)
Definition dialog_on (w : World) (card : Inventory.Item) (amount : Z)
    (reason : string) : Inventory.State :=
  Inventory.setAdjustmentReason reason
    (Inventory.setAdjustmentAmount (Some amount)
       (Inventory.openDialog card
          (Inventory.fetchData Served Served Inventory.initial w).1)).

Definition dialog : Z → string → Inventory.State :=
  dialog_on world chapati_card.

(** The card of "m1" once its stock has gone from 10 to 5. *)
Definition chapati_card_5 : Inventory.Item :=
  {| Inventory.id := "m1"; Inventory.name := "Chapati";
     Inventory.stock_quantity := 5; Inventory.category := "lunch" |}.

Definition log (i : string) (item : string) (before change at_ : Z)
    (why : string) : Db.inventory_logs_row :=
  {| Db.log_id := i; Db.menu_item_id := item; Db.change_amount := change;
     Db.previous_stock := before; Db.new_stock := before + change;
     Db.reason := why; Db.created_at := at_ |}.

Definition tables_with_logs : Db.t :=
  {| Db.menu_items := Db.menu_items tables;
     Db.inventory_logs :=
       [log "l1" "m1" 4 6 100 "Restocking"; log "l2" "m2" 5 (-2) 300 "Spoiled";
        log "l3" "gone" 1 1 200 "Found one"];
     Db.orders := ∅ |}.

Definition any_url (v : string) : bool := true.

Definition wrote : Menu.Replies :=
  {| Menu.write_reply := Served; Menu.fetch_reply := Served;
     Menu.refusal := "duplicate key value" |}.

(** The menu screen with the "Add Menu Item" form filled in. *)
Definition form (stock : jsnum) : Menu.State :=
  Menu.setFormData
    {| Menu.name := "Mandazi"; Menu.description := "Fried dough";
       Menu.price := Num (Q2Qc (1 # 4)); Menu.category := "snacks";
       Menu.stock_quantity := stock; Menu.image_url := "" |}
    (Menu.setIsDialogOpen true Menu.initial).

Definition mandazi_key : Db.generated :=
  {| Db.new_id := "m3"; Db.default_is_available := true |}.

(** An afternoon at the counter: sell out the chapati, try to remove
    more, add mandazi, mistype two stocks, delete the tea. *)
Definition session : list WritePath :=
  [adjust_stock served (dialog (-10) "Sold out");
   adjust_stock served (dialog (-11) "Sold out");
   submit_menu_item wrote mandazi_key (form (IntNum 4));
   submit_menu_item wrote mandazi_key (form (IntNum (-1)));
   submit_menu_item wrote mandazi_key (form (Num (Q2Qc (5 # 2))));
   delete_menu_item true wrote "m2" Menu.initial].

End Fixture.

(** ** Dialog events and derived views of the three screens *)

Module InventoryDialog.

(** [onOpenChange] of a card's dialog: [setIsDialogOpen(open)], and on
    closing the selection and the two inputs are cleared. *)
Definition onOpenChange (open : bool) (s : State) : State :=
  if open then
    {| menuItems := menuItems s; inventoryLogs := inventoryLogs s;
       loading := loading s; selectedItem := selectedItem s;
       adjustmentAmount := adjustmentAmount s;
       adjustmentReason := adjustmentReason s; isDialogOpen := true |}
  else
    {| menuItems := menuItems s; inventoryLogs := inventoryLogs s;
       loading := loading s; selectedItem := None; adjustmentAmount := 0;
       adjustmentReason := ""; isDialogOpen := false |}.

(** The "Cancel" button: [setIsDialogOpen(false)] and nothing else. *)
Definition cancel (s : State) : State :=
  {| menuItems := menuItems s; inventoryLogs := inventoryLogs s;
     loading := loading s; selectedItem := selectedItem s;
     adjustmentAmount := adjustmentAmount s;
     adjustmentReason := adjustmentReason s; isDialogOpen := false |}.

(** [open={isDialogOpen && selectedItem?.id === item.id}] of the dialog in
    the card of [item]. *)
Definition dialogOpen (s : State) (item : Item) : bool :=
  isDialogOpen s &&
  match selectedItem s with
  | Some selected => bool_decide (id selected = id item)
  | None => false
  end.

(** [lowStockItems.length > 0]: whether the alert card is rendered. *)
Definition alertShown (s : State) : bool :=
  bool_decide (0 < length (lowStockItems (menuItems s)))%nat.

End InventoryDialog.

Module MenuDialog.

(** [onOpenChange] of the form dialog: [setIsDialogOpen(open)], and on
    closing [resetForm()]. *)
Definition onOpenChange (open : bool) (s : Menu.State) : Menu.State :=
  if open then Menu.setIsDialogOpen true s
  else Menu.resetForm (Menu.setIsDialogOpen false s).

(** The "Cancel" button of the form. *)
Definition cancel (s : Menu.State) : Menu.State := Menu.setIsDialogOpen false s.

End MenuDialog.

Module OrdersView.

Definition getStatusColor (status : string) : string :=
  if bool_decide (status = "pending") then "bg-yellow-100 text-yellow-800"
  else if bool_decide (status = "preparing") then "bg-blue-100 text-blue-800"
  else if bool_decide (status = "ready") then "bg-green-100 text-green-800"
  else if bool_decide (status = "delivered") then "bg-gray-100 text-gray-800"
  else if bool_decide (status = "cancelled") then "bg-red-100 text-red-800"
  else "bg-gray-100 text-gray-800".

(** The values of the status [Select] of an order card. *)
Definition statuses : list string :=
  ["pending"; "preparing"; "ready"; "delivered"; "cancelled"].

Section Filter.

(** An order as fetched; the filter reads its [status] only. *)
Context {Order : Type} (status : Order → string).

Definition filteredOrders (filterStatus : string) (orders : list Order) : list Order :=
  if bool_decide (filterStatus = "all") then orders
  else filter (λ order, status order = filterStatus) orders.

(** [filteredOrders.length === 0]: whether "No orders found" is rendered. *)
Definition noOrdersFound (filterStatus : string) (orders : list Order) : bool :=
  bool_decide (length (filteredOrders filterStatus orders) = 0%nat).

End Filter.

End OrdersView.

(** More sample data *)

Module Sample.

(** The card of "m2" as fetched from [Fixture.world]. *)
Definition tea_card : Item :=
  {| id := "m2"; name := "Tea"; stock_quantity := 3; category := "beverages" |}.

(** The card of an item whose row is no longer in the table. *)
Definition ghost_card : Item :=
  {| id := "m9"; name := "Samosa"; stock_quantity := 6; category := "snacks" |}.

Definition refresh_fails : Replies :=
  {| update_reply := Served; items_reply := Failed "timeout";
     logs_reply := Served |}.

Definition update_fails : Replies :=
  {| update_reply := Failed "timeout"; items_reply := Served;
     logs_reply := Served |}.

Definition write_fails (message : string) : Menu.Replies :=
  {| Menu.write_reply := Failed message; Menu.fetch_reply := Served;
     Menu.refusal := "duplicate key value" |}.

(** The menu screen after a served fetch of [Fixture.world]. *)
Definition menu_loaded : Menu.State :=
  (Menu.fetchMenuItems Served Menu.initial Fixture.world).1.

Definition chapati_item : Menu.Item :=
  {| Menu.id := "m1"; Menu.row := Fixture.chapati |}.

Definition ghost_item : Menu.Item :=
  {| Menu.id := "m9"; Menu.row := Fixture.chapati |}.

(** Orders as the order screen needs them here: id and status. *)
Definition orders : list (string * string) :=
  [("o1", "pending"); ("o2", "ready"); ("o3", "pending"); ("o4", "all")].

Definition world_with_orders : World :=
  {| db := Db.with_orders (<["o1" := "pending"]> {["o2" := "ready"]}) Fixture.tables;
     toasts := [] |}.

End Sample.

(** * Properties of the inventory section *)

Lemma fetchData_db r1 r2 s w : db (fetchData r1 r2 s w).2 = db w.
Proof. by destruct r1, r2. Qed.

Lemma fetchData_toasts r1 r2 s w :
  ∃ extra, toasts (fetchData r1 r2 s w).2 = toasts w ++ extra.
Proof.
  destruct r1, r2; simpl; eauto; exists []; by rewrite app_nil_r.
Qed.


Lemma handleAdjustment_outcome net s w :
  adjustment_outcome net s w (handleAdjustment net s w).
Proof.
  unfold handleAdjustment, falsy.
  destruct (selectedItem s) as [item|] eqn:Hsel; [|constructor; auto].
  case_bool_decide as Hreason; [constructor; auto|].
  case_bool_decide as Hneg; [by eapply negative|].
  destruct (update_reply net) eqn:Hreply.
  - eapply updated; eauto; lia.
  - eapply refused; eauto; lia.
Qed.

Lemma handleAdjustment_inventory_logs net s w :
  Db.inventory_logs (db (handleAdjustment net s w).2) = Db.inventory_logs (db w).
Proof.
  destruct (handleAdjustment_outcome net s w); try done.
  by rewrite fetchData_db.
Qed.

Lemma handleAdjustment_valid net s w item :
  selectedItem s = Some item → adjustmentReason s ≠ "" →
  0 ≤ stock_quantity item + adjustmentAmount s →
  update_reply net = Served →
  handleAdjustment net s w =
    fetchData (items_reply net) (logs_reply net) (close_dialog s)
      (toast (stock_updated item)
         (with_db
            (Db.update_stock (id item)
               (stock_quantity item + adjustmentAmount s)
               (bool_decide (stock_quantity item + adjustmentAmount s > 0))
               (db w)) w)).
Proof.
  intros Hsel Hreason Hpos Hreply.
  unfold handleAdjustment, falsy. rewrite Hsel, Hreply.
  rewrite bool_decide_eq_false_2 by done.
  by rewrite bool_decide_eq_false_2 by lia.
Qed.

Lemma invalid_toasts_differ : invalid_input ≠ invalid_adjustment.
Proof. discriminate. Qed.

Lemma handleAdjustment_valid_db net s w item :
  selectedItem s = Some item → adjustmentReason s ≠ "" →
  0 ≤ stock_quantity item + adjustmentAmount s →
  update_reply net = Served →
  db (handleAdjustment net s w).2 =
    Db.update_stock (id item) (stock_quantity item + adjustmentAmount s)
      (bool_decide (stock_quantity item + adjustmentAmount s > 0)) (db w).
Proof.
  intros. erewrite handleAdjustment_valid by done. by rewrite fetchData_db.
Qed.

Lemma handleAdjustment_db net s w :
  db (handleAdjustment net s w).2 = db w ∨
  ∃ item newStock avail,
    selectedItem s = Some item ∧
    db (handleAdjustment net s w).2 = Db.update_stock (id item) newStock avail (db w).
Proof.
  destruct (handleAdjustment_outcome net s w); auto.
  right. eexists _, _, _. split; [done|]. rewrite fetchData_db. reflexivity.
Qed.

Lemma lookup_update_stock i n a d j :
  Db.menu_items (Db.update_stock i n a d) !! j =
    if decide (i = j) then Db.set_stock n a <$> Db.menu_items d !! j
    else Db.menu_items d !! j.
Proof.
  unfold Db.update_stock; simpl. rewrite lookup_alter.
  by repeat case_decide; simplify_eq.
Qed.

Lemma handleAdjustment_no_reason net s w :
  adjustmentReason s = "" → handleAdjustment net s w = (s, toast invalid_input w).
Proof.
  intros Hreason. unfold handleAdjustment, falsy. rewrite Hreason.
  by destruct (selectedItem s).
Qed.

Lemma handleAdjustment_negative net s w item :
  selectedItem s = Some item → adjustmentReason s ≠ "" →
  stock_quantity item + adjustmentAmount s < 0 →
  handleAdjustment net s w = (s, toast invalid_adjustment w).
Proof.
  intros Hsel Hreason Hneg. unfold handleAdjustment, falsy. rewrite Hsel.
  rewrite bool_decide_eq_false_2 by done.
  by rewrite bool_decide_eq_true_2 by done.
Qed.

Lemma handleAdjustment_negative_unchanged net s w item :
  selectedItem s = Some item →
  stock_quantity item + adjustmentAmount s < 0 →
  (handleAdjustment net s w).1 = s ∧ db (handleAdjustment net s w).2 = db w.
Proof.
  intros Hsel Hneg. destruct (decide (adjustmentReason s = "")) as [Hreason|Hreason].
  - by rewrite handleAdjustment_no_reason.
  - by erewrite handleAdjustment_negative.
Qed.

(** C1 (first half holds, ledger half does not): for a selected item, a
    non-empty reason and a new stock that is not negative, the workflow
    succeeds when the service serves the update and persists
    [stock_quantity + delta] on the item's row; the table [inventory_logs]
    is left as it was, so no ledger entry is appended and the reason is
    dropped. *)
Theorem adjustment_persists_stock_but_no_ledger_entry
    net s w (item : Item) (r : Db.menu_items_row) :
  selectedItem s = Some item →
  adjustmentReason s ≠ "" →
  0 ≤ stock_quantity item + adjustmentAmount s →
  update_reply net = Served →
  Db.menu_items (db w) !! id item = Some r →
  let w' := (handleAdjustment net s w).2 in
  stock_updated item ∈ toasts w' ∧
  Db.stock_quantity <$> Db.menu_items (db w') !! id item
    = Some (stock_quantity item + adjustmentAmount s) ∧
  Db.inventory_logs (db w') = Db.inventory_logs (db w).
Proof.
  intros Hsel Hreason Hpos Hreply Hrow w'. subst w'. split_and!.
  - erewrite handleAdjustment_valid by done.
    destruct (fetchData_toasts (items_reply net) (logs_reply net) (close_dialog s)
      (toast (stock_updated item)
         (with_db
            (Db.update_stock (id item)
               (stock_quantity item + adjustmentAmount s)
               (bool_decide (stock_quantity item + adjustmentAmount s > 0))
               (db w)) w))) as [extra ->].
    simpl. set_solver.
  - erewrite handleAdjustment_valid_db by done.
    rewrite lookup_update_stock, decide_True by done. by rewrite Hrow.
  - apply handleAdjustment_inventory_logs.
Qed.

Lemma adjustment_persists_stock_but_no_ledger_entry_witness :
  let w' := (handleAdjustment Fixture.served (Fixture.dialog 3 "Restocking")
               Fixture.world).2 in
  stock_updated Fixture.chapati_card ∈ toasts w' ∧
  Db.stock_quantity <$> Db.menu_items (db w') !! "m1" = Some 13 ∧
  Db.inventory_logs (db w') = [].
Proof.
  apply (adjustment_persists_stock_but_no_ledger_entry Fixture.served
           (Fixture.dialog 3 "Restocking") Fixture.world Fixture.chapati_card
           Fixture.chapati);
    [reflexivity | discriminate | discriminate | reflexivity | reflexivity].
Defined.

(** C2: when [stock_quantity + delta] is negative the workflow fails with a
    destructive toast and the database is left exactly as it was (no stock
    change, no ledger entry), whatever the reason; the component's cells are
    unchanged too.  With a reason given (the first check passed) the failure
    is the negative-stock one. *)
Theorem negative_stock_rejected net s w (item : Item) :
  selectedItem s = Some item →
  stock_quantity item + adjustmentAmount s < 0 →
  let out := handleAdjustment net s w in
  out.1 = s ∧
  db out.2 = db w ∧
  (∃ t, toasts out.2 = toasts w ++ [t] ∧ variant t = destructive) ∧
  (adjustmentReason s ≠ "" → out = (s, toast invalid_adjustment w)).
Proof.
  intros Hsel Hneg out. subst out.
  destruct (handleAdjustment_negative_unchanged net s w item Hsel Hneg) as [Hs Hdb].
  split_and!; try done.
  - destruct (decide (adjustmentReason s = "")) as [Hreason|Hreason].
    + rewrite handleAdjustment_no_reason by done. by eexists.
    + erewrite handleAdjustment_negative by done. by eexists.
  - intros Hreason. by apply handleAdjustment_negative with item.
Qed.

Lemma negative_stock_rejected_witness :
  let out := handleAdjustment Fixture.served (Fixture.dialog (-11) "Spoiled")
               Fixture.world in
  out.1 = Fixture.dialog (-11) "Spoiled" ∧
  db out.2 = Fixture.tables ∧
  (∃ t, toasts out.2 = [] ++ [t] ∧ variant t = destructive) ∧
  ("Spoiled" ≠ "" →
   out = (Fixture.dialog (-11) "Spoiled", toast invalid_adjustment Fixture.world)).
Proof.
  apply (negative_stock_rejected Fixture.served (Fixture.dialog (-11) "Spoiled")
           Fixture.world Fixture.chapati_card); reflexivity.
Defined.

(** C3 as stated fails: the reason is tested for emptiness only, never
    trimmed, so a reason of one space passes the check and the stock is
    updated. *)
Lemma whitespace_reason_is_accepted :
  let out := handleAdjustment Fixture.served (Fixture.dialog 1 " ") Fixture.world in
  out ≠ (Fixture.dialog 1 " ", toast invalid_input Fixture.world) ∧
  toasts out.2 = [stock_updated Fixture.chapati_card] ∧
  Db.stock_quantity <$> Db.menu_items (db out.2) !! "m1" = Some 11.
Proof. split_and!; [by vm_compute | reflexivity | reflexivity]. Qed.

(** C3, amended: when the reason is the empty string the workflow
    fails with the "provide a reason" toast and nothing else happens: the
    database (stock and ledger) and the component's cells are unchanged. *)
Theorem empty_reason_rejected net s w :
  adjustmentReason s = "" →
  handleAdjustment net s w = (s, toast invalid_input w) ∧
  db (handleAdjustment net s w).2 = db w.
Proof.
  intros Hreason. by rewrite handleAdjustment_no_reason.
Qed.

Lemma empty_reason_rejected_witness :
  handleAdjustment Fixture.served (Fixture.dialog 3 "") Fixture.world
    = (Fixture.dialog 3 "", toast invalid_input Fixture.world) ∧
  db (handleAdjustment Fixture.served (Fixture.dialog 3 "") Fixture.world).2
    = Fixture.tables.
Proof.
  apply (empty_reason_rejected Fixture.served (Fixture.dialog 3 "") Fixture.world).
  reflexivity.
Defined.

(** C5: after a successful adjustment the row of the selected item holds
    the new stock and [is_available] is exactly [new stock > 0]. *)
Theorem availability_follows_new_stock
    net s w (item : Item) (r : Db.menu_items_row) :
  selectedItem s = Some item →
  adjustmentReason s ≠ "" →
  0 ≤ stock_quantity item + adjustmentAmount s →
  update_reply net = Served →
  Db.menu_items (db w) !! id item = Some r →
  ∃ r', Db.menu_items (db (handleAdjustment net s w).2) !! id item = Some r' ∧
        Db.stock_quantity r' = stock_quantity item + adjustmentAmount s ∧
        Db.is_available r' = bool_decide (Db.stock_quantity r' > 0) ∧
        (Db.is_available r' = true ↔ 0 < stock_quantity item + adjustmentAmount s).
Proof.
  intros Hsel Hreason Hpos Hreply Hrow.
  erewrite handleAdjustment_valid_db by done.
  rewrite lookup_update_stock, decide_True, Hrow by done.
  eexists. split; [done|]. simpl. split_and!; try done.
  rewrite bool_decide_eq_true. lia.
Qed.

Lemma availability_follows_new_stock_witness :
  ∃ r', Db.menu_items
          (db (handleAdjustment Fixture.served (Fixture.dialog (-10) "Sold out")
                 Fixture.world).2) !! "m1" = Some r' ∧
        Db.stock_quantity r' = 10 + -10 ∧
        Db.is_available r' = bool_decide (Db.stock_quantity r' > 0) ∧
        (Db.is_available r' = true ↔ 0 < 10 + -10).
Proof.
  apply (availability_follows_new_stock Fixture.served
           (Fixture.dialog (-10) "Sold out") Fixture.world Fixture.chapati_card
           Fixture.chapati);
    [reflexivity | discriminate | discriminate | reflexivity | reflexivity].
Defined.

(** C6: the reason check comes first.  For an input that would drive the
    stock below zero, the call ends with the "provide a reason" toast when
    the reason is missing, and with the "cannot be negative" toast exactly
    when a reason is present. *)
Theorem reason_check_comes_first net s w (item : Item) :
  selectedItem s = Some item →
  stock_quantity item + adjustmentAmount s < 0 →
  let out := handleAdjustment net s w in
  (adjustmentReason s = "" →
     out = (s, toast invalid_input w) ∧ out ≠ (s, toast invalid_adjustment w)) ∧
  (out = (s, toast invalid_adjustment w) ↔ adjustmentReason s ≠ "").
Proof.
  intros Hsel Hneg out.
  assert (Hdiff : (s, toast invalid_input w) ≠ (s, toast invalid_adjustment w)).
  { intros [=Heq%(inj (app (toasts w)))]. discriminate. }
  subst out. split.
  - intros Hreason. by rewrite handleAdjustment_no_reason.
  - split.
    + intros Hout Hreason. by rewrite handleAdjustment_no_reason in Hout.
    + intros Hreason. by apply handleAdjustment_negative with item.
Qed.

Lemma reason_check_comes_first_witness :
  let s := Fixture.dialog (-11) "" in
  let out := handleAdjustment Fixture.served s Fixture.world in
  ("" = "" →
     out = (s, toast invalid_input Fixture.world) ∧
     out ≠ (s, toast invalid_adjustment Fixture.world)) ∧
  (out = (s, toast invalid_adjustment Fixture.world) ↔ "" ≠ "").
Proof.
  apply (reason_check_comes_first Fixture.served (Fixture.dialog (-11) "")
           Fixture.world Fixture.chapati_card); reflexivity.
Defined.

(** C7: [lowStockItems] keeps exactly the items whose stock is at most 10
    (10 included), in the order of the input: the result is a subsequence
    of the input, all of its items are low on stock, and it contains every
    subsequence of the input whose items are all low on stock. *)
Theorem lowStockItems_exact (items : list Item) :
  (∀ item, item ∈ lowStockItems items ↔ item ∈ items ∧ stock_quantity item ≤ 10) ∧
  lowStockItems items `sublist_of` items ∧
  (∀ l, l `sublist_of` items → Forall (λ item, stock_quantity item ≤ 10) l →
        l `sublist_of` lowStockItems items).
Proof.
  unfold lowStockItems. split_and!.
  - intros item. rewrite list_elem_of_filter. tauto.
  - apply sublist_filter.
  - intros l Hsub. induction Hsub as [|x l1 l2 Hsub IH|x l1 l2 Hsub IH]; intros Hall.
    + constructor.
    + apply Forall_cons in Hall as [Hx Hall].
      rewrite filter_cons_True by done. constructor. by apply IH.
    + rewrite filter_cons. case_decide; [constructor|]; by apply IH.
Qed.

(** The example of the specification: stocks 3, 15, 10, 0. *)
Example lowStockItems_example :
  let item i n := {| id := i; name := i; stock_quantity := n; category := "lunch" |} in
  lowStockItems [item "a" 3; item "b" 15; item "c" 10; item "d" 0]
    = [item "a" 3; item "c" 10; item "d" 0].
Proof. reflexivity. Qed.

(** C10: a call of [handleAdjustment] writes at most the columns
    [stock_quantity] and [is_available] of the row whose [id] is the
    selected item's.  The other tables and the set of rows are unchanged; in
    every row the name, category, price, description and image are
    unchanged; every row with another id is unchanged altogether. *)
Theorem adjustment_frame net s w :
  let d := db w in
  let d' := db (handleAdjustment net s w).2 in
  Db.inventory_logs d' = Db.inventory_logs d ∧
  Db.orders d' = Db.orders d ∧
  dom (Db.menu_items d') = dom (Db.menu_items d) ∧
  ∀ i r, Db.menu_items d !! i = Some r →
    ∃ r', Db.menu_items d' !! i = Some r' ∧
          Db.name r' = Db.name r ∧ Db.category r' = Db.category r ∧
          Db.price r' = Db.price r ∧ Db.description r' = Db.description r ∧
          Db.image_url r' = Db.image_url r ∧
          (selectedItem s = None → r' = r) ∧
          (∀ item, selectedItem s = Some item → i ≠ id item → r' = r).
Proof.
  intros d d'. subst d d'.
  destruct (handleAdjustment_db net s w) as [->|(item & n & a & Hsel & ->)].
  - split_and!; try done. intros i r Hrow. exists r. naive_solver.
  - split_and!; try done.
    + unfold Db.update_stock; simpl. apply dom_alter_L.
    + intros i r Hrow. rewrite lookup_update_stock, Hrow.
      case_decide as Hi; simpl; eexists; (split; [done|]);
        split_and!; try done; naive_solver.
Qed.

(** C9 as stated fails: two sessions that both read stock 10 and then
    adjust by -5 and by -3 leave stock 7 (the second write overwrites the
    first), not 2. *)
Lemma second_adjustment_overwrites_first :
  let wA := (handleAdjustment Fixture.served (Fixture.dialog (-5) "Spoiled")
               Fixture.world).2 in
  let wB := (handleAdjustment Fixture.served (Fixture.dialog (-3) "Counted again")
               wA).2 in
  Db.stock_quantity <$> Db.menu_items (db wA) !! "m1" = Some 5 ∧
  Db.stock_quantity <$> Db.menu_items (db wB) !! "m1" = Some 7 ∧
  Db.stock_quantity <$> Db.menu_items (db wB) !! "m1" ≠ Some 2.
Proof. split_and!; [reflexivity | reflexivity | by vm_compute]. Qed.

(** C9, amended: the update overwrites the stored stock with the value
    computed in the browser from the selected item as it was fetched.  Of two
    successful adjustments of one item applied one after the other, the
    second leaves [its fetched stock + its delta], whatever the first wrote;
    the deltas add up only when the second session fetched the item after
    the first write. *)
Theorem adjustment_overwrites_stored_stock
    netA netB sA sB w (itemA itemB : Item) (r : Db.menu_items_row) :
  selectedItem sA = Some itemA → adjustmentReason sA ≠ "" →
  0 ≤ stock_quantity itemA + adjustmentAmount sA →
  update_reply netA = Served →
  selectedItem sB = Some itemB → adjustmentReason sB ≠ "" →
  0 ≤ stock_quantity itemB + adjustmentAmount sB →
  update_reply netB = Served →
  id itemA = id itemB →
  Db.menu_items (db w) !! id itemA = Some r →
  let wA := (handleAdjustment netA sA w).2 in
  let wB := (handleAdjustment netB sB wA).2 in
  Db.stock_quantity <$> Db.menu_items (db wB) !! id itemB
    = Some (stock_quantity itemB + adjustmentAmount sB) ∧
  (stock_quantity itemB = stock_quantity itemA + adjustmentAmount sA →
   Db.stock_quantity <$> Db.menu_items (db wB) !! id itemB
     = Some (stock_quantity itemA + adjustmentAmount sA + adjustmentAmount sB)).
Proof.
  intros HselA HreasonA HposA HreplyA HselB HreasonB HposB HreplyB Hid Hrow wA wB.
  assert (Db.stock_quantity <$> Db.menu_items (db wB) !! id itemB
            = Some (stock_quantity itemB + adjustmentAmount sB)) as Hlast.
  { subst wA wB.
    rewrite (handleAdjustment_valid_db netB sB _ itemB) by done.
    rewrite (handleAdjustment_valid_db netA sA _ itemA) by done.
    rewrite !lookup_update_stock, !decide_True, <- Hid, Hrow by done. done. }
  split; [done|]. intros <-. done.
Qed.

Lemma adjustment_overwrites_stored_stock_witness :
  let sA := Fixture.dialog (-5) "Spoiled" in
  let wA := (handleAdjustment Fixture.served sA Fixture.world).2 in
  let sB := Fixture.dialog_on wA Fixture.chapati_card_5 (-3) "Counted again" in
  let wB := (handleAdjustment Fixture.served sB wA).2 in
  Db.stock_quantity <$> Db.menu_items (db wB) !! "m1" = Some (5 + -3) ∧
  (5 = 10 + -5 →
   Db.stock_quantity <$> Db.menu_items (db wB) !! "m1" = Some (10 + -5 + -3)).
Proof.
  apply (adjustment_overwrites_stored_stock Fixture.served Fixture.served
           (Fixture.dialog (-5) "Spoiled")
           (Fixture.dialog_on
              (handleAdjustment Fixture.served (Fixture.dialog (-5) "Spoiled")
                 Fixture.world).2 Fixture.chapati_card_5 (-3) "Counted again")
           Fixture.world Fixture.chapati_card Fixture.chapati_card_5 Fixture.chapati);
    first [reflexivity | discriminate].
Defined.

(** * The ledger read path *)

Lemma newest_first_transitive : Transitive newest_first.
Proof. unfold newest_first. intros a b c. lia. Qed.

Lemma newest_first_total : Total newest_first.
Proof. unfold newest_first. intros a b. lia. Qed.

Lemma select_logs_sorted d :
  ∃ older, StronglySorted newest_first (select_logs d ++ older) ∧
           select_logs d ++ older ≡ₚ embed d <$> Db.inventory_logs d.
Proof.
  exists (drop 20 (merge_sort newest_first (embed d <$> Db.inventory_logs d))).
  unfold select_logs. rewrite take_drop. split.
  - apply (StronglySorted_merge_sort newest_first
             (Transitive0 := newest_first_transitive) (Total0 := newest_first_total)).
  - apply merge_sort_Permutation.
Qed.

Lemma row_embed d (l : list Db.inventory_logs_row) : row <$> (embed d <$> l) = l.
Proof. rewrite <- list_fmap_compose. induction l; simpl; by f_equal. Qed.

(** C8: a served [fetchData] stores in [inventoryLogs] the rows of
    [inventory_logs] across all items, newest first by [created_at], at
    most 20 of them and the 20 newest when there are more: the rows left
    out are no newer than any row kept.  Each row kept is a row of the
    table as stored, paired with the name of the menu item whose id is its
    [menu_item_id].  The database is left as it was. *)
Theorem recent_logs_newest_first_limit_20 s w :
  let out := fetchData Served Served s w in
  let logs := inventoryLogs out.1 in
  let table := Db.inventory_logs (db w) in
  db out.2 = db w ∧
  StronglySorted newest_first logs ∧
  length logs = Nat.min 20 (length table) ∧
  (∀ l, l ∈ logs →
     row l ∈ table ∧
     menu_items l = Db.name <$> Db.menu_items (db w) !! Db.menu_item_id (row l)) ∧
  (∃ older, (row <$> logs) ++ older ≡ₚ table ∧
     ∀ l r, l ∈ logs → r ∈ older → Db.created_at r ≤ Db.created_at (row l)).
Proof.
  intros out logs table. subst out logs table. simpl.
  destruct (select_logs_sorted (db w)) as (older & Hsorted & Hperm).
  split_and!.
  - done.
  - by eapply StronglySorted_app_1_l.
  - unfold select_logs. rewrite length_take. f_equal.
    by rewrite merge_sort_Permutation, length_fmap.
  - intros l Hl.
    assert (l ∈ embed (db w) <$> Db.inventory_logs (db w)) as Hin.
    { rewrite <- Hperm. set_solver. }
    apply list_elem_of_fmap in Hin as (r & -> & Hr). done.
  - exists (row <$> older). split.
    + rewrite <- fmap_app, Hperm. by rewrite row_embed.
    + intros l r Hl (l' & -> & Hl')%list_elem_of_fmap.
      by apply (StronglySorted_app_1_elem_of _ _ _ l l' Hsorted).
Qed.

(** On three rows, the newest comes first and a row whose item is gone has
    no name. *)
Example recent_logs_example :
  let s := (fetchData Served Served initial
              {| db := Fixture.tables_with_logs; toasts := [] |}).1 in
  (λ l, (Db.log_id (row l), menu_items l)) <$> inventoryLogs s
    = [("l2", Some "Tea"); ("l3", None); ("l1", Some "Chapati")].
Proof. reflexivity. Qed.

(** * Every write path keeps the stock non-negative *)


Lemma stock_never_negative_alter (f : Db.menu_items_row → Db.menu_items_row) i d :
  (∀ r, 0 ≤ Db.stock_quantity (f r)) →
  stock_never_negative d →
  stock_never_negative (Db.with_menu_items (alter f i (Db.menu_items d)) d).
Proof.
  intros Hf Hd j r. simpl. rewrite lookup_alter.
  case_decide; [|by apply Hd].
  destruct (Db.menu_items d !! i); intros; simplify_eq/=. apply Hf.
Qed.

Lemma fetchMenuItems_db reply s w : db (Menu.fetchMenuItems reply s w).2 = db w.
Proof. by destruct reply. Qed.

(** What a form that passes [menuItemSchema] holds in [stock_quantity]. *)
Lemma menuItemSchema_stock_quantity is_url f :
  Menu.menuItemSchema is_url f = [] →
  ∃ z, to_integer (Menu.stock_quantity f) = Some z ∧ 0 ≤ z.
Proof.
  unfold Menu.menuItemSchema. intros Hnil.
  repeat (apply app_eq_nil in Hnil as [? Hnil]).
  destruct (Menu.stock_quantity f) as [q|]; [|done].
  unfold Menu.check_stock_quantity, Menu.when in *.
  destruct (isInteger (Num q)) eqn:Hint; [|done].
  case_bool_decide as Hneg; [done|].
  unfold to_integer. rewrite Hint. eexists; split; [done|].
  destruct q as [[n dn] ?]. unfold Qclt, Qlt in Hneg. simpl in *. lia.
Qed.

Lemma typed_stock p q z : Db.typed p = Some (q, z) → to_integer (Db.p_stock_quantity p) = Some z.
Proof.
  unfold Db.typed. destruct (Db.p_price p); [|done].
  destruct (to_integer _); naive_solver.
Qed.

Lemma handleSubmit_db is_url message net g s w :
  let d' := db (Menu.handleSubmit is_url message net g s w).2 in
  d' = db w ∨
  ∃ z, to_integer (Menu.stock_quantity (Menu.formData s)) = Some z ∧ 0 ≤ z ∧
       Menu.menuItemSchema is_url (Menu.formData s) = [] ∧
       ((∃ item q, Menu.editingItem s = Some item ∧
           d' = Db.with_menu_items
                  (alter (λ r, Db.set_fields (Menu.payload_of (Menu.formData s)) q z
                                 (Db.is_available r)) (Menu.id item)
                     (Db.menu_items (db w))) (db w)) ∨
        (∃ q, Menu.editingItem s = None ∧ Db.menu_items (db w) !! Db.new_id g = None ∧
           d' = Db.with_menu_items
                  (<[Db.new_id g :=
                       Db.set_fields (Menu.payload_of (Menu.formData s)) q z
                         (Db.default_is_available g)]> (Db.menu_items (db w))) (db w))).
Proof.
  intros d'. subst d'. unfold Menu.handleSubmit, Menu.answer.
  destruct (Menu.menuItemSchema _ _) eqn:Hschema; [|by left].
  destruct (menuItemSchema_stock_quantity _ _ Hschema) as (z & Hz & Hpos).
  destruct (Menu.editingItem s) as [item|].
  - unfold Db.update_item.
    destruct (Db.typed _) as [[q z']|] eqn:Htyped.
    + apply typed_stock in Htyped. simpl in Htyped. simplify_eq.
      destruct (Menu.write_reply net); simpl; [|by left].
      rewrite fetchMenuItems_db. right. exists z. split_and!; try done.
      left. by exists item, q.
    + destruct (Menu.write_reply net); by left.
  - unfold Db.insert_item.
    destruct (Db.typed _) as [[q z']|] eqn:Htyped.
    + apply typed_stock in Htyped. simpl in Htyped. simplify_eq.
      destruct (Db.menu_items (db w) !! Db.new_id g) eqn:Hfresh;
        (destruct (Menu.write_reply net); simpl; [|by left]); [by left|].
      rewrite fetchMenuItems_db. right. exists z. split_and!; try done.
      right. by exists q.
    + destruct (Menu.write_reply net); by left.
Qed.

Lemma write_stock_never_negative is_url message w p :
  stock_never_negative (db w) → stock_never_negative (db (write is_url message w p)).
Proof.
  intros Hinv. destruct p as [net s|net g s|confirmed net i s|r1 r2 o st]; simpl.
  - destruct (handleAdjustment_outcome net s w); try done.
    rewrite fetchData_db. simpl. apply stock_never_negative_alter; [|done].
    intros r. simpl. lia.
  - destruct (handleSubmit_db is_url message net g s w)
      as [->|(z & _ & Hpos & _ & [(item & q & _ & ->)|(q & _ & _ & ->)])]; [done|..].
    + by apply stock_never_negative_alter.
    + unfold stock_never_negative; simpl. by apply map_Forall_insert_2.
  - unfold Menu.handleDelete. destruct confirmed; simpl; [|done].
    destruct (Menu.write_reply net); [|done].
    rewrite fetchMenuItems_db. simpl. by apply map_Forall_delete.
  - unfold Orders.updateOrderStatus, Orders.fetchOrders.
    destruct r1; [|done]. by destruct r2.
Qed.

(** C4: [stock_quantity ≥ 0] is kept by every write path.  If no row of
    [menu_items] has a negative stock, none has after any sequence of stock
    adjustments, menu form submissions, deletions and order status updates.
    A submission changes the database only when the form's stock is an
    integer that is not negative, and an adjustment whose result would be
    negative changes nothing. *)
Theorem stock_quantity_never_negative is_url message w (ps : list WritePath) :
  stock_never_negative (db w) →
  stock_never_negative (db (writes is_url message w ps)) ∧
  (∀ net g s,
     db (Menu.handleSubmit is_url message net g s w).2 ≠ db w →
     ∃ z, to_integer (Menu.stock_quantity (Menu.formData s)) = Some z ∧ 0 ≤ z) ∧
  (∀ net s item,
     selectedItem s = Some item →
     stock_quantity item + adjustmentAmount s < 0 →
     db (handleAdjustment net s w).2 = db w).
Proof.
  intros Hinv. split_and!.
  - revert w Hinv. unfold writes.
    induction ps as [|p ps IH]; intros w Hinv; simpl; [done|].
    by apply IH, write_stock_never_negative.
  - intros net g s Hchanged.
    destruct (handleSubmit_db is_url message net g s w) as [?|(z & ? & ? & _)];
      [done|by exists z].
  - intros net s item Hsel Hneg.
    by apply (handleAdjustment_negative_unchanged net s w item).
Qed.

Lemma stock_quantity_never_negative_witness :
  stock_never_negative
    (db (writes Fixture.any_url Menu.path Fixture.world Fixture.session)) ∧
  (∀ net g s,
     db (Menu.handleSubmit Fixture.any_url Menu.path net g s Fixture.world).2
       ≠ Fixture.tables →
     ∃ z, to_integer (Menu.stock_quantity (Menu.formData s)) = Some z ∧ 0 ≤ z) ∧
  (∀ net s item,
     selectedItem s = Some item →
     stock_quantity item + adjustmentAmount s < 0 →
     db (handleAdjustment net s Fixture.world).2 = Fixture.tables).
Proof.
  apply (stock_quantity_never_negative Fixture.any_url Menu.path Fixture.world
           Fixture.session).
  apply map_Forall_insert_2; [discriminate|].
  apply map_Forall_singleton. discriminate.
Defined.

(** The sample session: the stocks it leaves, and the toasts it shows. *)
Example session_example :
  let w := writes Fixture.any_url Menu.path Fixture.world Fixture.session in
  (λ kv, (kv.1, Db.stock_quantity kv.2, Db.is_available kv.2))
    <$> map_to_list (Db.menu_items (db w))
    = [("m3", 4, true); ("m1", 0, false)] ∧
  title <$> toasts w
    = ["Stock Updated"; "Invalid Adjustment"; "Menu Item Added";
       "Validation Error"; "Validation Error"; "Item Deleted"].
Proof. split; reflexivity. Qed.


(** * Further properties of the inventory section *)

Lemma stock_ascending_transitive : Transitive stock_ascending.
Proof. unfold stock_ascending. intros a b c. lia. Qed.

Lemma stock_ascending_total : Total stock_ascending.
Proof. unfold stock_ascending. intros a b. lia. Qed.

Lemma select_items_Permutation d :
  select_items d ≡ₚ project <$> map_to_list (Db.menu_items d).
Proof. apply merge_sort_Permutation. Qed.

Lemma select_items_sorted d : StronglySorted stock_ascending (select_items d).
Proof.
  apply (StronglySorted_merge_sort stock_ascending
           (Transitive0 := stock_ascending_transitive)
           (Total0 := stock_ascending_total)).
Qed.

Lemma elem_of_select_items d (c : Item) :
  c ∈ select_items d ↔
  ∃ r, Db.menu_items d !! id c = Some r ∧ c = project (id c, r).
Proof.
  rewrite select_items_Permutation, list_elem_of_fmap. split.
  - intros ([i r] & -> & Hin%elem_of_map_to_list). by exists r.
  - intros (r & Hrow & Hc). exists (id c, r). by rewrite elem_of_map_to_list.
Qed.

Lemma select_items_ids d : id <$> select_items d ≡ₚ (map_to_list (Db.menu_items d)).*1.
Proof.
  rewrite select_items_Permutation, <- list_fmap_compose.
  by erewrite list_fmap_ext.
Qed.

Lemma fetchData_served s w :
  fetchData Served Served s w
    = (set_loading false (set_data (select_items (db w)) (select_logs (db w)) s), w).
Proof. done. Qed.

(** X1: after a served [fetchData] the cards are the rows of
    [menu_items], one card per row with the row's name, stock and category,
    ordered by ascending stock; no two cards share an id. *)
Theorem cards_sorted_one_per_row s w :
  let cards := menuItems (fetchData Served Served s w).1 in
  StronglySorted stock_ascending cards ∧
  NoDup (id <$> cards) ∧
  length cards = size (Db.menu_items (db w)) ∧
  ∀ c : Item, c ∈ cards ↔
    ∃ r, Db.menu_items (db w) !! id c = Some r ∧ name c = Db.name r ∧
         stock_quantity c = Db.stock_quantity r ∧ category c = Db.category r.
Proof.
  intros cards. subst cards. rewrite fetchData_served. simpl. split_and!.
  - apply select_items_sorted.
  - rewrite select_items_ids. apply NoDup_fst_map_to_list.
  - rewrite select_items_Permutation, length_fmap. apply length_map_to_list.
  - intros c. rewrite elem_of_select_items. split.
    + intros (r & Hrow & ->). by exists r.
    + intros (r & Hrow & Hn & Hs & Hc). exists r. split; [done|].
      destruct c; simpl in *. by subst.
Qed.

Lemma lowStockItems_sorted_prefix (l : list Item) :
  StronglySorted stock_ascending l →
  ∃ rest, l = lowStockItems l ++ rest ∧
          Forall (λ c, 10 < stock_quantity c) rest.
Proof.
  unfold lowStockItems. induction 1 as [|c l Hsorted IH Hall].
  - by exists [].
  - destruct (decide (stock_quantity c ≤ 10)) as [Hlow|Hhigh].
    + destruct IH as (rest & Hl & Hrest). exists rest.
      rewrite filter_cons_True by done. simpl. by rewrite <- Hl.
    + exists (c :: l). rewrite filter_cons_False by done.
      assert (Forall (λ c' : Item, 10 < stock_quantity c') (c :: l)) as Hgt.
      { constructor; [lia|]. eapply Forall_impl; [exact Hall|].
        unfold stock_ascending. intros c'. simpl. lia. }
      split; [|done].
      assert (filter (λ item : Item, stock_quantity item ≤ 10) l = []) as ->; [|done].
      apply Forall_cons in Hgt as [_ Hgt].
      clear -Hgt. induction Hgt as [|c' l' Hc' _ IH']; [done|].
      rewrite filter_cons_False by lia. done.
Qed.

(** X2: on the cards of a served [fetchData] the low stock alert lists
    the first cards: the card list is the alert's items followed by cards
    whose stock is above 10. *)
Theorem low_stock_alert_is_prefix_of_cards s w :
  let cards := menuItems (fetchData Served Served s w).1 in
  ∃ rest, cards = lowStockItems cards ++ rest ∧
          Forall (λ c, 10 < stock_quantity c) rest.
Proof.
  intros cards. subst cards. rewrite fetchData_served. simpl.
  apply lowStockItems_sorted_prefix, select_items_sorted.
Qed.

(** X3: after a successful adjustment whose refresh is served, the
    dialog is closed, the selection and both inputs are cleared, and the
    card of the adjusted row shows the new stock. *)
Theorem successful_adjustment_refreshes_card
    net s w (item : Item) (r : Db.menu_items_row) :
  selectedItem s = Some item →
  adjustmentReason s ≠ "" →
  0 ≤ stock_quantity item + adjustmentAmount s →
  update_reply net = Served →
  items_reply net = Served →
  logs_reply net = Served →
  Db.menu_items (db w) !! id item = Some r →
  let s' := (handleAdjustment net s w).1 in
  isDialogOpen s' = false ∧ selectedItem s' = None ∧
  adjustmentAmount s' = 0 ∧ adjustmentReason s' = "" ∧ loading s' = false ∧
  {| id := id item; name := Db.name r;
     stock_quantity := stock_quantity item + adjustmentAmount s;
     category := Db.category r |} ∈ menuItems s'.
Proof.
  intros Hsel Hreason Hpos Hupdate Hitems Hlogs Hrow s'. subst s'.
  erewrite handleAdjustment_valid by done. rewrite Hitems, Hlogs, fetchData_served.
  simpl. split_and!; try done.
  apply elem_of_select_items. simpl.
  rewrite lookup_alter_eq, Hrow. by eexists.
Qed.

Lemma successful_adjustment_refreshes_card_witness :
  let s' := (handleAdjustment Fixture.served (Fixture.dialog (-4) "Sold")
               Fixture.world).1 in
  isDialogOpen s' = false ∧ selectedItem s' = None ∧
  adjustmentAmount s' = 0 ∧ adjustmentReason s' = "" ∧ loading s' = false ∧
  {| id := "m1"; name := "Chapati"; stock_quantity := 10 + -4;
     category := "lunch" |} ∈ menuItems s'.
Proof.
  apply (successful_adjustment_refreshes_card Fixture.served
           (Fixture.dialog (-4) "Sold") Fixture.world Fixture.chapati_card
           Fixture.chapati); first [reflexivity | discriminate].
Defined.

(** X4: when the update is served but the refresh fails, the new stock is
    in the database while the cards and the log list keep what they showed
    before; the dialog is closed and two toasts are shown, the success one and
    then the loading error. *)
Theorem failed_refresh_leaves_stale_cards
    net s w (item : Item) (r : Db.menu_items_row) :
  selectedItem s = Some item →
  adjustmentReason s ≠ "" →
  0 ≤ stock_quantity item + adjustmentAmount s →
  update_reply net = Served →
  items_reply net ≠ Served ∨ logs_reply net ≠ Served →
  Db.menu_items (db w) !! id item = Some r →
  let out := handleAdjustment net s w in
  menuItems out.1 = menuItems s ∧ inventoryLogs out.1 = inventoryLogs s ∧
  isDialogOpen out.1 = false ∧ loading out.1 = false ∧
  toasts out.2 = toasts w ++ [stock_updated item; load_failed] ∧
  Db.stock_quantity <$> Db.menu_items (db out.2) !! id item
    = Some (stock_quantity item + adjustmentAmount s).
Proof.
  intros Hsel Hreason Hpos Hupdate Hrefresh Hrow out. subst out.
  erewrite handleAdjustment_valid by done.
  assert (∀ s0 w0, fetchData (items_reply net) (logs_reply net) s0 w0
                   = (set_loading false s0, toast load_failed w0)) as ->.
  { intros. destruct (items_reply net), (logs_reply net); try done.
    by destruct Hrefresh. }
  simpl. rewrite <- (assoc_L (++)). split_and!; try done.
  by rewrite lookup_alter_eq, Hrow.
Qed.

Lemma failed_refresh_leaves_stale_cards_witness :
  let s := Fixture.dialog (-4) "Sold" in
  let out := handleAdjustment Sample.refresh_fails s Fixture.world in
  menuItems out.1 = menuItems s ∧ inventoryLogs out.1 = inventoryLogs s ∧
  isDialogOpen out.1 = false ∧ loading out.1 = false ∧
  toasts out.2 = [] ++ [stock_updated Fixture.chapati_card; load_failed] ∧
  Db.stock_quantity <$> Db.menu_items (db out.2) !! "m1" = Some (10 + -4).
Proof.
  apply (failed_refresh_leaves_stale_cards Sample.refresh_fails
           (Fixture.dialog (-4) "Sold") Fixture.world Fixture.chapati_card
           Fixture.chapati);
    first [reflexivity | discriminate | (left; discriminate)].
Defined.

(** X5: when the service fails the update, or the input is refused,
    nothing is written and the cells are untouched, so the dialog stays open
    with what was typed; exactly one destructive toast is shown.  For a
    valid input it is the "Failed to update stock" toast. *)
Theorem failed_update_changes_nothing net s w msg :
  update_reply net = Failed msg →
  let out := handleAdjustment net s w in
  out.1 = s ∧ db out.2 = db w ∧
  (∃ t, toasts out.2 = toasts w ++ [t] ∧ variant t = destructive) ∧
  (∀ item, selectedItem s = Some item → adjustmentReason s ≠ "" →
           0 ≤ stock_quantity item + adjustmentAmount s →
           out = (s, toast update_failed w)).
Proof.
  intros Hreply out. subst out. unfold handleAdjustment, falsy. rewrite Hreply.
  destruct (selectedItem s) as [item|]; [|split_and!; by eauto].
  case_bool_decide as Hreason; [split_and!; by eauto|].
  case_bool_decide as Hneg.
  - split_and!; try by eauto. intros ? [= <-]. lia.
  - split_and!; by eauto.
Qed.

Lemma failed_update_changes_nothing_witness :
  let s := Fixture.dialog 3 "Restocking" in
  let out := handleAdjustment Sample.update_fails s Fixture.world in
  out.1 = s ∧ db out.2 = Fixture.tables ∧
  (∃ t, toasts out.2 = [] ++ [t] ∧ variant t = destructive) ∧
  (∀ item, selectedItem s = Some item → adjustmentReason s ≠ "" →
           0 ≤ stock_quantity item + adjustmentAmount s →
           out = (s, toast update_failed Fixture.world)).
Proof.
  apply (failed_update_changes_nothing Sample.update_fails
           (Fixture.dialog 3 "Restocking") Fixture.world "timeout").
  reflexivity.
Defined.

Lemma update_stock_missing i n a d :
  Db.menu_items d !! i = None → Db.update_stock i n a d = d.
Proof.
  intros Hnone. unfold Db.update_stock, Db.with_menu_items.
  rewrite alter_id by (intros ?; by rewrite Hnone). by destruct d.
Qed.

(** X6: when the row of the selected item is no longer in the table (it
    was deleted after the cards were fetched), a valid adjustment still
    shows "Stock Updated" although the database is left as it was. *)
Theorem adjustment_of_deleted_item_reports_success net s w (item : Item) :
  selectedItem s = Some item →
  adjustmentReason s ≠ "" →
  0 ≤ stock_quantity item + adjustmentAmount s →
  update_reply net = Served →
  Db.menu_items (db w) !! id item = None →
  let out := handleAdjustment net s w in
  db out.2 = db w ∧ stock_updated item ∈ toasts out.2.
Proof.
  intros Hsel Hreason Hpos Hreply Hnone out. subst out. split.
  - erewrite handleAdjustment_valid_db by done. by apply update_stock_missing.
  - erewrite handleAdjustment_valid by done.
    destruct (fetchData_toasts (items_reply net) (logs_reply net) (close_dialog s)
      (toast (stock_updated item)
         (with_db
            (Db.update_stock (id item)
               (stock_quantity item + adjustmentAmount s)
               (bool_decide (stock_quantity item + adjustmentAmount s > 0))
               (db w)) w))) as [extra ->].
    simpl. set_solver.
Qed.

Lemma adjustment_of_deleted_item_reports_success_witness :
  let s := Fixture.dialog_on Fixture.world Sample.ghost_card 2 "Restocking" in
  let out := handleAdjustment Fixture.served s Fixture.world in
  db out.2 = Fixture.tables ∧ stock_updated Sample.ghost_card ∈ toasts out.2.
Proof.
  apply (adjustment_of_deleted_item_reports_success Fixture.served
           (Fixture.dialog_on Fixture.world Sample.ghost_card 2 "Restocking")
           Fixture.world Sample.ghost_card); first [reflexivity | discriminate].
Defined.

Lemma update_stock_twice i n a d :
  Db.update_stock i n a (Db.update_stock i n a d) = Db.update_stock i n a d.
Proof.
  unfold Db.update_stock, Db.with_menu_items. simpl. f_equal.
  apply map_eq. intros j. rewrite !lookup_alter.
  repeat case_decide; try done. subst.
  by destruct (Db.menu_items d !! j).
Qed.

(** X7: running the handler twice from the same cells (a double click
    before the screen re-renders) leaves the database as one run does: the
    amount is not applied twice. *)
Theorem double_click_applies_amount_once net s w :
  db (handleAdjustment net s (handleAdjustment net s w).2).2
    = db (handleAdjustment net s w).2.
Proof.
  unfold handleAdjustment, falsy.
  destruct (selectedItem s) as [item|]; [|done].
  case_bool_decide; [done|]. case_bool_decide; [done|].
  destruct (update_reply net); [|done].
  rewrite !fetchData_db. cbn [db toast with_db].
  apply update_stock_twice.
Qed.

(** X8: an amount field that does not parse as a number counts as 0, and
    an adjustment by 0 is accepted: with a reason and a fetched stock that
    is not negative the handler reports success and writes the fetched stock
    back on the row, with [is_available] recomputed from it. *)
Theorem unparsable_amount_is_zero_adjustment
    net s w (item : Item) (r : Db.menu_items_row) :
  selectedItem s = Some item →
  adjustmentReason s ≠ "" →
  0 ≤ stock_quantity item →
  update_reply net = Served →
  Db.menu_items (db w) !! id item = Some r →
  let out := handleAdjustment net (setAdjustmentAmount None s) w in
  stock_updated item ∈ toasts out.2 ∧
  Db.menu_items (db out.2) !! id item
    = Some (Db.set_stock (stock_quantity item)
              (bool_decide (stock_quantity item > 0)) r).
Proof.
  intros Hsel Hreason Hpos Hreply Hrow out. subst out.
  assert (0 ≤ stock_quantity item + adjustmentAmount (setAdjustmentAmount None s))
    as Hpos' by (simpl; lia).
  split.
  - erewrite handleAdjustment_valid by done.
    match goal with
    | |- _ ∈ toasts (fetchData ?a ?b ?c ?d).2 =>
        destruct (fetchData_toasts a b c d) as [extra ->]
    end.
    simpl. set_solver.
  - erewrite handleAdjustment_valid_db by done.
    rewrite lookup_update_stock, decide_True, Hrow by done.
    simpl. by rewrite Z.add_0_r.
Qed.

Lemma unparsable_amount_is_zero_adjustment_witness :
  let out := handleAdjustment Fixture.served
               (setAdjustmentAmount None (Fixture.dialog 7 "Recount"))
               Fixture.world in
  stock_updated Fixture.chapati_card ∈ toasts out.2 ∧
  Db.menu_items (db out.2) !! "m1"
    = Some (Db.set_stock 10 (bool_decide (10 > 0)) Fixture.chapati).
Proof.
  apply (unparsable_amount_is_zero_adjustment Fixture.served
           (Fixture.dialog 7 "Recount") Fixture.world Fixture.chapati_card
           Fixture.chapati); first [reflexivity | discriminate].
Defined.

(** X9: after the "Adjust Stock" button of a fetched card is pressed,
    the dialog is open in that card and in no other; once the dialog is closed
    through [onOpenChange], it is open in no card. *)
Theorem one_dialog_open_at_a_time s w (c : Item) :
  let s0 := (fetchData Served Served s w).1 in
  c ∈ menuItems s0 →
  (∀ c', c' ∈ menuItems s0 →
     (InventoryDialog.dialogOpen (openDialog c s0) c' = true ↔ c' = c)) ∧
  (∀ c', InventoryDialog.dialogOpen
           (InventoryDialog.onOpenChange false (openDialog c s0)) c' = false).
Proof.
  intros s0. subst s0. rewrite fetchData_served. simpl.
  intros (r & Hrow & Hc)%elem_of_select_items. split; [|done].
  intros c' (r' & Hrow' & Hc')%elem_of_select_items.
  unfold InventoryDialog.dialogOpen. simpl. rewrite bool_decide_eq_true.
  split; [|by intros ->].
  intros Hid. rewrite <- Hid, Hrow in Hrow'. injection Hrow' as <-.
  rewrite Hc, Hc'. unfold project. simpl. by rewrite Hid.
Qed.

Lemma one_dialog_open_at_a_time_witness :
  let s0 := (fetchData Served Served initial Fixture.world).1 in
  (∀ c', c' ∈ menuItems s0 →
     (InventoryDialog.dialogOpen (openDialog Fixture.chapati_card s0) c' = true
      ↔ c' = Fixture.chapati_card)) ∧
  (∀ c', InventoryDialog.dialogOpen
           (InventoryDialog.onOpenChange false
              (openDialog Fixture.chapati_card s0)) c' = false).
Proof.
  apply (one_dialog_open_at_a_time initial Fixture.world Fixture.chapati_card).
  apply (list_elem_of_lookup_2 _ 1%nat). reflexivity.
Defined.

(** X10: the "Cancel" button only closes the dialog.  The amount and
    the reason typed before it are still in the cells when the dialog of
    another card is opened, and confirming there applies the earlier amount
    to the newly selected item; closing through [onOpenChange] instead
    clears them, and confirming is then refused for want of a reason. *)
Theorem cancel_keeps_typed_amount_and_reason
    net s w (item : Item) (r : Db.menu_items_row) :
  adjustmentReason s ≠ "" →
  0 ≤ stock_quantity item + adjustmentAmount s →
  update_reply net = Served →
  Db.menu_items (db w) !! id item = Some r →
  Db.stock_quantity
    <$> Db.menu_items
          (db (handleAdjustment net (openDialog item (InventoryDialog.cancel s)) w).2)
        !! id item
    = Some (stock_quantity item + adjustmentAmount s) ∧
  handleAdjustment net (openDialog item (InventoryDialog.onOpenChange false s)) w
    = (openDialog item (InventoryDialog.onOpenChange false s), toast invalid_input w).
Proof.
  intros Hreason Hpos Hreply Hrow. split.
  - rewrite (handleAdjustment_valid_db net _ w item) by done. simpl.
    by rewrite lookup_alter_eq, Hrow.
  - by apply handleAdjustment_no_reason.
Qed.

Lemma cancel_keeps_typed_amount_and_reason_witness :
  let s := Fixture.dialog (-2) "Spoiled" in
  Db.stock_quantity
    <$> Db.menu_items
          (db (handleAdjustment Fixture.served
                 (openDialog Sample.tea_card (InventoryDialog.cancel s))
                 Fixture.world).2) !! "m2"
    = Some (3 + -2) ∧
  handleAdjustment Fixture.served
      (openDialog Sample.tea_card (InventoryDialog.onOpenChange false s))
      Fixture.world
    = (openDialog Sample.tea_card (InventoryDialog.onOpenChange false s),
       toast invalid_input Fixture.world).
Proof.
  apply (cancel_keeps_typed_amount_and_reason Fixture.served
           (Fixture.dialog (-2) "Spoiled") Fixture.world Sample.tea_card
           Fixture.tea); first [reflexivity | discriminate].
Defined.

(** X11: after a served [fetchData] the low stock alert is rendered
    exactly when some row of [menu_items] has a stock of at most 10. *)
Theorem alert_shown_iff_some_row_is_low s w :
  InventoryDialog.alertShown (fetchData Served Served s w).1 = true ↔
  ∃ i r, Db.menu_items (db w) !! i = Some r ∧ Db.stock_quantity r ≤ 10.
Proof.
  rewrite fetchData_served. unfold InventoryDialog.alertShown, lowStockItems. simpl.
  rewrite bool_decide_eq_true. split.
  - intros Hlen.
    destruct (filter _ (select_items (db w))) as [|c l] eqn:Hfilter;
      [simpl in Hlen; lia|].
    assert (c ∈ filter (λ item : Item, stock_quantity item ≤ 10)
                  (select_items (db w))) as Hin by (rewrite Hfilter; left).
    apply list_elem_of_filter in Hin as [Hlow (r & Hrow & Hc)%elem_of_select_items].
    exists (id c), r. split; [done|]. by rewrite Hc in Hlow.
  - intros (i & r & Hrow & Hlow).
    assert (project (i, r) ∈ filter (λ item : Item, stock_quantity item ≤ 10)
                               (select_items (db w))) as Hin.
    { apply list_elem_of_filter. split; [done|].
      apply elem_of_select_items. by exists r. }
    destruct (filter _ _); [by apply elem_of_nil in Hin|simpl; lia].
Qed.

(** * Further properties of the menu section *)

Lemma when_nil b i : Menu.when b i = [] ↔ b = false.
Proof. by destruct b. Qed.

Lemma Qc_negative_iff (q : Qc) : (q < 0)%Qc ↔ Qnum (Qcanon.this q) < 0.
Proof. destruct q as [[n d] ?]. unfold Qclt, Qlt. simpl. lia. Qed.

Lemma Qc_nonnegative_iff (q : Qc) : (0 ≤ q)%Qc ↔ 0 ≤ Qnum (Qcanon.this q).
Proof. destruct q as [[n d] ?]. unfold Qcle, Qle. simpl. lia. Qed.

Lemma check_stock_quantity_nil v :
  Menu.check_stock_quantity v = [] ↔ ∃ z, to_integer v = Some z ∧ 0 ≤ z.
Proof.
  destruct v as [q|].
  - unfold Menu.check_stock_quantity, to_integer.
    rewrite app_nil, !when_nil, negb_false_iff, bool_decide_eq_false.
    rewrite Qc_negative_iff. destruct (isInteger (Num q)).
    + split.
      * intros [_ Hq]. eexists. split; [done|lia].
      * intros (z & [= <-] & Hz). split; [done|lia].
    + split; [by intros [? _]|by intros (z & ? & _)].
  - split; [done|by intros (z & ? & _)].
Qed.

Lemma check_price_nil v :
  Menu.check_price v = [] ↔ ∃ q, v = Num q ∧ (0 ≤ q)%Qc.
Proof.
  destruct v as [q|].
  - unfold Menu.check_price.
    rewrite when_nil, bool_decide_eq_false, Qc_negative_iff. split.
    + intros Hq. exists q. split; [done|]. apply Qc_nonnegative_iff. lia.
    + intros (q' & [= <-] & Hq%Qc_nonnegative_iff). lia.
  - split; [done|by intros (q & ? & _)].
Qed.

Lemma menuItemSchema_nil is_url (f : Menu.FormData) :
  Menu.menuItemSchema is_url f = [] ↔
  (2 ≤ String.length (Menu.name f) ≤ 100)%nat ∧
  (String.length (Menu.description f) ≤ 500)%nat ∧
  (∃ q, Menu.price f = Num q ∧ (0 ≤ q)%Qc) ∧
  Menu.category f ∈ Menu.categories ∧
  (∃ z, to_integer (Menu.stock_quantity f) = Some z ∧ 0 ≤ z) ∧
  (is_url (Menu.image_url f) = true ∨ Menu.image_url f = "").
Proof.
  unfold Menu.menuItemSchema. rewrite !app_nil.
  rewrite check_stock_quantity_nil, check_price_nil.
  unfold Menu.check_name, Menu.check_description, Menu.check_category,
    Menu.check_image_url, falsy.
  rewrite app_nil, !when_nil, !Nat.ltb_ge, bool_decide_eq_false,
    negb_false_iff, orb_true_iff, bool_decide_eq_true.
  split; [intros ([? ?] & ? & ? & Hcat & ? & ?)|intros ([? ?] & ? & ? & Hcat & ? & ?)];
    split_and!; try done.
  - by apply dec_stable.
  - by intros ?.
Qed.

(** X12: [menuItemSchema] accepts a form exactly when the name has 2 to
    100 characters, the description at most 500, the price is a number that
    is not negative, the category is one of the six, the stock is an integer
    that is not negative, and the image is a URL or empty. *)
Theorem menuItemSchema_accepts_iff is_url (f : Menu.FormData) :
  Menu.menuItemSchema is_url f = [] ↔
  (2 ≤ String.length (Menu.name f) ≤ 100)%nat ∧
  (String.length (Menu.description f) ≤ 500)%nat ∧
  (∃ q, Menu.price f = Num q ∧ (0 ≤ q)%Qc) ∧
  Menu.category f ∈ Menu.categories ∧
  (∃ z, to_integer (Menu.stock_quantity f) = Some z ∧ 0 ≤ z) ∧
  (is_url (Menu.image_url f) = true ∨ Menu.image_url f = "").
Proof.
  unfold Menu.menuItemSchema. rewrite !app_nil.
  rewrite check_stock_quantity_nil, check_price_nil.
  unfold Menu.check_name, Menu.check_description, Menu.check_category,
    Menu.check_image_url, falsy.
  rewrite app_nil, !when_nil, !Nat.ltb_ge, bool_decide_eq_false,
    negb_false_iff, orb_true_iff, bool_decide_eq_true.
  split.
  - intros ([Hmin Hmax] & Hdescription & Hprice & Hcategory & Hstock & Himage).
    split_and!; try done. by apply dec_stable.
  - intros ([Hmin Hmax] & Hdescription & Hprice & Hcategory & Hstock & Himage).
    split_and!; try done. by intros ?.
Qed.

Lemma handleSubmit_rejected is_url message net g s w :
  Menu.menuItemSchema is_url (Menu.formData s) ≠ [] →
  ∃ issue, issue ∈ Menu.menuItemSchema is_url (Menu.formData s) ∧
    Menu.handleSubmit is_url message net g s w
      = (s, toast (Menu.validation_error (message issue)) w).
Proof.
  intros Hissues. unfold Menu.handleSubmit.
  destruct (Menu.menuItemSchema _ _) as [|issue rest]; [done|].
  exists issue. split; [left|done].
Qed.

(** X13: a form whose stock is blank (NaN), fractional or negative is
    refused: nothing is written, the cells keep the form as typed, and one
    "Validation Error" toast is shown. *)
Theorem bad_stock_is_refused is_url message net g s w :
  (∀ z, to_integer (Menu.stock_quantity (Menu.formData s)) = Some z → z < 0) →
  let out := Menu.handleSubmit is_url message net g s w in
  out.1 = s ∧ db out.2 = db w ∧
  ∃ t, toasts out.2 = toasts w ++ [t] ∧ title t = "Validation Error".
Proof.
  intros Hbad out. subst out.
  destruct (handleSubmit_rejected is_url message net g s w) as (issue & _ & ->).
  - rewrite menuItemSchema_nil. intros (_ & _ & _ & _ & (z & Hz & Hpos) & _).
    specialize (Hbad z Hz). lia.
  - split_and!; try done. by eexists.
Qed.

Lemma bad_stock_is_refused_witness :
  let out := Menu.handleSubmit Fixture.any_url Menu.path Fixture.wrote
               Fixture.mandazi_key (Fixture.form NaN) Fixture.world in
  out.1 = Fixture.form NaN ∧ db out.2 = Fixture.tables ∧
  ∃ t, toasts out.2 = [] ++ [t] ∧ title t = "Validation Error".
Proof.
  apply (bad_stock_is_refused Fixture.any_url Menu.path Fixture.wrote
           Fixture.mandazi_key (Fixture.form NaN) Fixture.world).
  intros z Hz. discriminate Hz.
Defined.

(** X14: the checks run in the order of the schema's fields and the
    toast shows the first issue: a name shorter than 2 characters is what
    is reported, whatever else is wrong with the form. *)
Theorem short_name_is_reported_first is_url message net g s w :
  (String.length (Menu.name (Menu.formData s)) < 2)%nat →
  Menu.handleSubmit is_url message net g s w
    = (s, toast (Menu.validation_error
                   (message {| Menu.code := Menu.too_small; Menu.path := "name" |})) w).
Proof.
  intros Hshort. unfold Menu.handleSubmit, Menu.menuItemSchema, Menu.check_name.
  apply Nat.ltb_lt in Hshort. by rewrite Hshort.
Qed.

Lemma short_name_is_reported_first_witness :
  Menu.handleSubmit Fixture.any_url Menu.path Fixture.wrote Fixture.mandazi_key
      (Menu.resetForm (Fixture.form NaN)) Fixture.world
    = (Menu.resetForm (Fixture.form NaN),
       toast (Menu.validation_error
                (Menu.path {| Menu.code := Menu.too_small; Menu.path := "name" |}))
         Fixture.world).
Proof.
  apply (short_name_is_reported_first Fixture.any_url Menu.path Fixture.wrote
           Fixture.mandazi_key (Menu.resetForm (Fixture.form NaN)) Fixture.world).
  apply Nat.ltb_lt. reflexivity.
Defined.

Lemma to_integer_IntNum z : to_integer (IntNum z) = Some z.
Proof.
  unfold to_integer, IntNum, isInteger, Q2Qc. simpl.
  rewrite Qred_identity by (simpl; apply Z.gcd_1_r). done.
Qed.

Lemma with_menu_items_id d : Db.with_menu_items (Db.menu_items d) d = d.
Proof. by destruct d. Qed.

(** What an accepted form sends, and what [handleSubmit] does with it when
    the write is served. *)
Lemma handleSubmit_accepted is_url message net g s w :
  Menu.menuItemSchema is_url (Menu.formData s) = [] →
  Menu.write_reply net = Served →
  ∃ q z,
    Menu.price (Menu.formData s) = Num q ∧
    to_integer (Menu.stock_quantity (Menu.formData s)) = Some z ∧
    Menu.handleSubmit is_url message net g s w =
      let p := Menu.payload_of (Menu.formData s) in
      let m := Db.menu_items (db w) in
      let saved done m' :=
        Menu.fetchMenuItems (Menu.fetch_reply net)
          (Menu.resetForm (Menu.setIsDialogOpen false s))
          (toast done (with_db (Db.with_menu_items m' (db w)) w)) in
      match Menu.editingItem s with
      | Some item =>
          saved Menu.item_updated
            (alter (λ r, Db.set_fields p q z (Db.is_available r)) (Menu.id item) m)
      | None =>
          match m !! Db.new_id g with
          | None =>
              saved Menu.item_added
                (<[Db.new_id g := Db.set_fields p q z (Db.default_is_available g)]> m)
          | Some _ => (s, toast (Menu.save_failed (Menu.refusal net)) w)
          end
      end.
Proof.
  intros Hschema Hreply.
  pose proof Hschema as (_ & _ & (q & Hq & _) & _ & (z & Hz & _) & _)%menuItemSchema_nil.
  exists q, z. split_and!; try done.
  unfold Menu.handleSubmit, Menu.answer, Db.update_item, Db.insert_item, Db.typed.
  rewrite Hschema, Hreply. simpl. rewrite Hq, Hz.
  destruct (Menu.editingItem s); [done|].
  by destruct (Db.menu_items (db w) !! Db.new_id g).
Qed.

Lemma fetchMenuItems_toasts reply s w :
  ∃ extra, toasts (Menu.fetchMenuItems reply s w).2 = toasts w ++ extra.
Proof. destruct reply; simpl; eauto. exists []. by rewrite app_nil_r. Qed.

Lemma fetchMenuItems_cells reply s w :
  Menu.formData (Menu.fetchMenuItems reply s w).1 = Menu.formData s ∧
  Menu.editingItem (Menu.fetchMenuItems reply s w).1 = Menu.editingItem s ∧
  Menu.isDialogOpen (Menu.fetchMenuItems reply s w).1 = Menu.isDialogOpen s.
Proof. by destruct reply. Qed.

(** X15: opening an item with [handleEdit] and saving the form as it is
    leaves the database unchanged, provided the row is still as fetched, the
    form passes the schema and the stored image is not the empty string;
    the form is reset and the dialog closed. *)
Theorem edit_and_save_unchanged_is_identity
    is_url message net g s w (item : Menu.Item) :
  Menu.menuItemSchema is_url (Menu.formData (Menu.handleEdit item s)) = [] →
  Db.image_url (Menu.row item) ≠ Some "" →
  Menu.write_reply net = Served →
  Db.menu_items (db w) !! Menu.id item = Some (Menu.row item) →
  let out := Menu.handleSubmit is_url message net g (Menu.handleEdit item s) w in
  db out.2 = db w ∧ Menu.item_updated ∈ toasts out.2 ∧
  Menu.formData out.1 = Menu.emptyForm ∧ Menu.editingItem out.1 = None ∧
  Menu.isDialogOpen out.1 = false.
Proof.
  intros Hschema Himage Hreply Hrow out. subst out.
  destruct (handleSubmit_accepted is_url message net g _ w Hschema Hreply)
    as (q & z & Hq & Hz & ->).
  cbn [Menu.formData Menu.handleEdit Menu.price Menu.stock_quantity] in Hq, Hz.
  injection Hq as <-. rewrite to_integer_IntNum in Hz.
  injection Hz as <-. cbn zeta. cbn [Menu.editingItem Menu.handleEdit].
  split_and!.
  - rewrite fetchMenuItems_db. cbn [db toast with_db].
    rewrite alter_id; [apply with_menu_items_id|].
    intros r. rewrite Hrow. intros [= <-].
    destruct item as [i [n d p c k a [[|ch u]|]]]; by simpl.
  - match goal with
    | |- _ ∈ toasts (Menu.fetchMenuItems ?a ?b ?c).2 =>
        destruct (fetchMenuItems_toasts a b c) as [extra ->]
    end.
    simpl. set_solver.
  - by rewrite (proj1 (fetchMenuItems_cells _ _ _)).
  - by rewrite (proj1 (proj2 (fetchMenuItems_cells _ _ _))).
  - by rewrite (proj2 (proj2 (fetchMenuItems_cells _ _ _))).
Qed.

Lemma edit_and_save_unchanged_is_identity_witness :
  let out := Menu.handleSubmit Fixture.any_url Menu.path Fixture.wrote
               Fixture.mandazi_key
               (Menu.handleEdit Sample.chapati_item Sample.menu_loaded)
               Fixture.world in
  db out.2 = Fixture.tables ∧ Menu.item_updated ∈ toasts out.2 ∧
  Menu.formData out.1 = Menu.emptyForm ∧ Menu.editingItem out.1 = None ∧
  Menu.isDialogOpen out.1 = false.
Proof.
  apply (edit_and_save_unchanged_is_identity Fixture.any_url Menu.path
           Fixture.wrote Fixture.mandazi_key Sample.menu_loaded Fixture.world
           Sample.chapati_item); first [reflexivity | discriminate].
Defined.

Lemma handleSubmit_editing_db is_url message net g s w (item : Menu.Item) :
  Menu.editingItem s = Some item →
  ∃ f : Db.menu_items_row → Db.menu_items_row,
    (∀ r, Db.is_available (f r) = Db.is_available r) ∧
    db (Menu.handleSubmit is_url message net g s w).2
      = Db.with_menu_items (alter f (Menu.id item) (Db.menu_items (db w))) (db w).
Proof.
  intros Hedit.
  destruct (handleSubmit_db is_url message net g s w)
    as [Hsame|(z & _ & _ & _ & [(item' & q & Hedit' & Hdb)|(q & Hnone & _)])].
  - exists (λ r, r). split; [done|]. rewrite Hsame, alter_id by done.
    by rewrite with_menu_items_id.
  - rewrite Hedit in Hedit'. injection Hedit' as <-. eexists. split; [|exact Hdb].
    done.
  - by rewrite Hedit in Hnone.
Qed.

(** X16: saving an edited item never adds or removes a row, never
    touches [inventory_logs] or [orders], leaves every other row as it
    was, and leaves [is_available] as it was even on the edited row: raising
    the stock of an unavailable item in the menu form does not make it
    available. *)
Theorem edit_keeps_availability_and_other_rows
    is_url message net g s w (item : Menu.Item) :
  Menu.editingItem s = Some item →
  let d' := db (Menu.handleSubmit is_url message net g s w).2 in
  dom (Db.menu_items d') = dom (Db.menu_items (db w)) ∧
  Db.inventory_logs d' = Db.inventory_logs (db w) ∧
  Db.orders d' = Db.orders (db w) ∧
  ∀ i r, Db.menu_items (db w) !! i = Some r →
    ∃ r', Db.menu_items d' !! i = Some r' ∧
          Db.is_available r' = Db.is_available r ∧
          (i ≠ Menu.id item → r' = r).
Proof.
  intros Hedit d'. subst d'.
  destruct (handleSubmit_editing_db is_url message net g s w item Hedit)
    as (f & Hf & ->).
  simpl. split_and!; try done; [apply dom_alter_L|].
  intros i r Hrow. rewrite lookup_alter.
  case_decide as Hi.
  - subst. rewrite Hrow. simpl. eexists. split; [done|]. split; [apply Hf|done].
  - exists r. split_and!; done.
Qed.

Lemma edit_keeps_availability_and_other_rows_witness :
  let s := Menu.setFormData
             {| Menu.name := "Chapati"; Menu.description := "Flat bread";
                Menu.price := Num (Q2Qc (3 # 2)); Menu.category := "lunch";
                Menu.stock_quantity := IntNum 25; Menu.image_url := "" |}
             (Menu.handleEdit Sample.chapati_item Sample.menu_loaded) in
  let d' := db (Menu.handleSubmit Fixture.any_url Menu.path Fixture.wrote
                  Fixture.mandazi_key s Fixture.world).2 in
  dom (Db.menu_items d') = dom (Db.menu_items Fixture.tables) ∧
  Db.inventory_logs d' = Db.inventory_logs Fixture.tables ∧
  Db.orders d' = Db.orders Fixture.tables ∧
  ∀ i r, Db.menu_items Fixture.tables !! i = Some r →
    ∃ r', Db.menu_items d' !! i = Some r' ∧
          Db.is_available r' = Db.is_available r ∧
          (i ≠ "m1" → r' = r).
Proof.
  apply (edit_keeps_availability_and_other_rows Fixture.any_url Menu.path
           Fixture.wrote Fixture.mandazi_key
           (Menu.setFormData
              {| Menu.name := "Chapati"; Menu.description := "Flat bread";
                 Menu.price := Num (Q2Qc (3 # 2)); Menu.category := "lunch";
                 Menu.stock_quantity := IntNum 25; Menu.image_url := "" |}
              (Menu.handleEdit Sample.chapati_item Sample.menu_loaded))
           Fixture.world Sample.chapati_item).
  reflexivity.
Defined.

(** X17: submitting an accepted form with no item being edited inserts
    one row under the key the database generates: the row holds the form's
    name, description, category, price and stock, an absent image when the
    field is empty, and the default availability; every existing row is
    unchanged and the ledger is untouched. *)
Theorem add_inserts_exactly_the_form is_url message net g s w :
  Menu.editingItem s = None →
  Menu.menuItemSchema is_url (Menu.formData s) = [] →
  Menu.write_reply net = Served →
  Db.menu_items (db w) !! Db.new_id g = None →
  let d' := db (Menu.handleSubmit is_url message net g s w).2 in
  let f := Menu.formData s in
  (∃ r, Db.menu_items d' !! Db.new_id g = Some r ∧
        Db.name r = Menu.name f ∧ Db.description r = Menu.description f ∧
        Db.category r = Menu.category f ∧ Menu.price f = Num (Db.price r) ∧
        to_integer (Menu.stock_quantity f) = Some (Db.stock_quantity r) ∧
        Db.is_available r = Db.default_is_available g ∧
        Db.image_url r
          = (if bool_decide (Menu.image_url f = "") then None
             else Some (Menu.image_url f))) ∧
  (∀ i, i ≠ Db.new_id g → Db.menu_items d' !! i = Db.menu_items (db w) !! i) ∧
  size (Db.menu_items d') = S (size (Db.menu_items (db w))) ∧
  Db.inventory_logs d' = Db.inventory_logs (db w).
Proof.
  intros Hedit Hschema Hreply Hfresh d' f. subst d' f.
  destruct (handleSubmit_accepted is_url message net g s w Hschema Hreply)
    as (q & z & Hq & Hz & ->).
  cbn zeta. rewrite Hedit, Hfresh, fetchMenuItems_db. cbn [db toast with_db].
  simpl. split_and!; try done.
  - rewrite lookup_insert_eq. eexists. split; [done|]. by simpl.
  - intros i Hi. by rewrite lookup_insert_ne.
  - by apply map_size_insert_None.
Qed.

Lemma add_inserts_exactly_the_form_witness :
  let s := Fixture.form (IntNum 4) in
  let d' := db (Menu.handleSubmit Fixture.any_url Menu.path Fixture.wrote
                  Fixture.mandazi_key s Fixture.world).2 in
  let f := Menu.formData s in
  (∃ r, Db.menu_items d' !! "m3" = Some r ∧
        Db.name r = Menu.name f ∧ Db.description r = Menu.description f ∧
        Db.category r = Menu.category f ∧ Menu.price f = Num (Db.price r) ∧
        to_integer (Menu.stock_quantity f) = Some (Db.stock_quantity r) ∧
        Db.is_available r = true ∧
        Db.image_url r
          = (if bool_decide (Menu.image_url f = "") then None
             else Some (Menu.image_url f))) ∧
  (∀ i, i ≠ "m3" → Db.menu_items d' !! i = Db.menu_items Fixture.tables !! i) ∧
  size (Db.menu_items d') = S (size (Db.menu_items Fixture.tables)) ∧
  Db.inventory_logs d' = Db.inventory_logs Fixture.tables.
Proof.
  apply (add_inserts_exactly_the_form Fixture.any_url Menu.path Fixture.wrote
           Fixture.mandazi_key (Fixture.form (IntNum 4)) Fixture.world);
    reflexivity.
Defined.

Lemma select_all_Permutation d :
  Menu.select_all d
    ≡ₚ (λ kv, {| Menu.id := kv.1; Menu.row := kv.2 |}) <$> map_to_list (Db.menu_items d).
Proof. apply merge_sort_Permutation. Qed.

Lemma elem_of_select_all d (item : Menu.Item) :
  item ∈ Menu.select_all d ↔ Db.menu_items d !! Menu.id item = Some (Menu.row item).
Proof.
  rewrite select_all_Permutation, list_elem_of_fmap. split.
  - by intros ([i r] & -> & Hin%elem_of_map_to_list).
  - intros Hrow. exists (Menu.id item, Menu.row item).
    rewrite elem_of_map_to_list. by destruct item.
Qed.

(** X18: a confirmed, served [handleDelete] removes the row with the
    given id and no other, leaves the ledger alone and shows "Item
    Deleted" (also when no row had that id); after a served refresh no item
    of the list has the id.  Declining the confirm box changes nothing. *)
Theorem delete_removes_one_row net i s w :
  Menu.write_reply net = Served →
  let out := Menu.handleDelete true net i s w in
  Db.menu_items (db out.2) !! i = None ∧
  (∀ j, j ≠ i → Db.menu_items (db out.2) !! j = Db.menu_items (db w) !! j) ∧
  Db.inventory_logs (db out.2) = Db.inventory_logs (db w) ∧
  Menu.item_deleted ∈ toasts out.2 ∧
  (Menu.fetch_reply net = Served →
   ∀ item, item ∈ Menu.menuItems out.1 → Menu.id item ≠ i) ∧
  Menu.handleDelete false net i s w = (s, w).
Proof.
  intros Hreply out. subst out. unfold Menu.handleDelete. rewrite Hreply.
  cbn [negb]. rewrite fetchMenuItems_db. cbn [db toast with_db].
  split_and!; try done.
  - apply lookup_delete_eq.
  - intros j Hj. simpl. by rewrite lookup_delete_ne.
  - match goal with
    | |- _ ∈ toasts (Menu.fetchMenuItems ?a ?b ?c).2 =>
        destruct (fetchMenuItems_toasts a b c) as [extra ->]
    end.
    simpl. set_solver.
  - intros ->. simpl. intros item Hitem%elem_of_select_all Hid.
    simpl in Hitem. by rewrite Hid, lookup_delete_eq in Hitem.
Qed.

Lemma delete_removes_one_row_witness :
  let out := Menu.handleDelete true Fixture.wrote "m2" Sample.menu_loaded
               Fixture.world in
  Db.menu_items (db out.2) !! "m2" = None ∧
  (∀ j, j ≠ "m2" →
        Db.menu_items (db out.2) !! j = Db.menu_items Fixture.tables !! j) ∧
  Db.inventory_logs (db out.2) = Db.inventory_logs Fixture.tables ∧
  Menu.item_deleted ∈ toasts out.2 ∧
  (Served = Served →
   ∀ item, item ∈ Menu.menuItems out.1 → Menu.id item ≠ "m2") ∧
  Menu.handleDelete false Fixture.wrote "m2" Sample.menu_loaded Fixture.world
    = (Sample.menu_loaded, Fixture.world).
Proof.
  apply (delete_removes_one_row Fixture.wrote "m2" Sample.menu_loaded
           Fixture.world).
  reflexivity.
Defined.

(** X19: saving an edit of an item whose row has been deleted meanwhile
    shows "Menu Item Updated" although nothing is written: the row is not
    created again. *)
Theorem edit_of_deleted_item_reports_success
    is_url message net g s w (item : Menu.Item) :
  Menu.editingItem s = Some item →
  Menu.menuItemSchema is_url (Menu.formData s) = [] →
  Menu.write_reply net = Served →
  Db.menu_items (db w) !! Menu.id item = None →
  let out := Menu.handleSubmit is_url message net g s w in
  db out.2 = db w ∧ Menu.item_updated ∈ toasts out.2.
Proof.
  intros Hedit Hschema Hreply Hnone out. subst out.
  destruct (handleSubmit_accepted is_url message net g s w Hschema Hreply)
    as (q & z & _ & _ & ->).
  cbn zeta. rewrite Hedit. split.
  - rewrite fetchMenuItems_db. cbn [db toast with_db].
    rewrite alter_id by (intros ?; by rewrite Hnone). apply with_menu_items_id.
  - match goal with
    | |- _ ∈ toasts (Menu.fetchMenuItems ?a ?b ?c).2 =>
        destruct (fetchMenuItems_toasts a b c) as [extra ->]
    end.
    simpl. set_solver.
Qed.

Lemma edit_of_deleted_item_reports_success_witness :
  let out := Menu.handleSubmit Fixture.any_url Menu.path Fixture.wrote
               Fixture.mandazi_key
               (Menu.handleEdit Sample.ghost_item Sample.menu_loaded)
               Fixture.world in
  db out.2 = Fixture.tables ∧ Menu.item_updated ∈ toasts out.2.
Proof.
  apply (edit_of_deleted_item_reports_success Fixture.any_url Menu.path
           Fixture.wrote Fixture.mandazi_key
           (Menu.handleEdit Sample.ghost_item Sample.menu_loaded) Fixture.world
           Sample.ghost_item); reflexivity.
Defined.

Lemma compare_Lt_iff (a b : string) :
  String.compare a b = Lt ↔ String.le a b ∧ a ≠ b.
Proof.
  unfold String.le, String.leb.
  pose proof (String.compare_eq_iff a b) as Heq.
  pose proof (String.compare_antisym a b) as Hanti.
  destruct (String.compare a b) eqn:Hab; simpl.
  - split; [done|]. intros [_ Hne]. destruct Hne. by apply Heq.
  - split; [|done]. intros _. split; [done|]. intros ->.
    rewrite Hab in Hanti. done.
  - split; [done|]. by intros [[] _].
Qed.

Lemma category_then_name_transitive : Transitive Menu.category_then_name.
Proof.
  unfold Menu.category_then_name. intros a b c.
  generalize (Db.category (Menu.row a)) (Db.category (Menu.row b))
    (Db.category (Menu.row c)).
  intros ca cb cc.
  destruct (String.compare ca cb) eqn:Hab; [| |done].
  - apply String.compare_eq_iff in Hab as ->.
    destruct (String.compare cb cc); [|done..]. intros. by etrans.
  - destruct (String.compare cb cc) eqn:Hbc; [| |done].
    + apply String.compare_eq_iff in Hbc as <-. by rewrite Hab.
    + intros _ _. apply compare_Lt_iff in Hab as [Hab Hne].
      apply compare_Lt_iff in Hbc as [Hbc Hne'].
      assert (String.compare ca cc = Lt) as ->; [|done].
      apply compare_Lt_iff. split; [by etrans|].
      intros ->. apply Hne. by apply (anti_symm String.le).
Qed.

Lemma category_then_name_total : Total Menu.category_then_name.
Proof.
  unfold Menu.category_then_name. intros a b.
  rewrite (String.compare_antisym (Db.category (Menu.row a))).
  destruct (String.compare _ _); simpl; auto. apply total, _.
Qed.

(** X20: after a served [fetchMenuItems] the list holds the rows of
    [menu_items], each row once under its id, ordered by category and,
    within a category, by name. *)
Theorem menu_list_sorted_one_per_row s w :
  let items := Menu.menuItems (Menu.fetchMenuItems Served s w).1 in
  StronglySorted Menu.category_then_name items ∧
  NoDup (Menu.id <$> items) ∧
  length items = size (Db.menu_items (db w)) ∧
  ∀ item, item ∈ items ↔
          Db.menu_items (db w) !! Menu.id item = Some (Menu.row item).
Proof.
  simpl. split_and!.
  - apply (StronglySorted_merge_sort Menu.category_then_name
             (Transitive0 := category_then_name_transitive)
             (Total0 := category_then_name_total)).
  - rewrite select_all_Permutation, <- list_fmap_compose.
    apply NoDup_fst_map_to_list.
  - rewrite select_all_Permutation, length_fmap. apply length_map_to_list.
  - apply elem_of_select_all.
Qed.

(** X21: when the service fails the write of an accepted form, nothing
    is written and the cells keep the form and the open dialog for another
    try; the toast shows the service's message, or "Failed to save menu
    item" when the message is empty. *)
Theorem failed_save_keeps_form is_url message net g s w msg :
  Menu.menuItemSchema is_url (Menu.formData s) = [] →
  Menu.write_reply net = Failed msg →
  Menu.handleSubmit is_url message net g s w
    = (s, toast {| title := "Error";
                   toast_description :=
                     if bool_decide (msg = "") then "Failed to save menu item"
                     else msg;
                   variant := destructive |} w).
Proof.
  intros Hschema Hreply. unfold Menu.handleSubmit, Menu.answer.
  rewrite Hschema, Hreply. by destruct (Menu.editingItem s).
Qed.

Lemma failed_save_keeps_form_witness :
  Menu.handleSubmit Fixture.any_url Menu.path (Sample.write_fails "")
      Fixture.mandazi_key (Fixture.form (IntNum 4)) Fixture.world
    = (Fixture.form (IntNum 4),
       toast {| title := "Error";
                toast_description :=
                  if bool_decide ("" = "") then "Failed to save menu item" else "";
                variant := destructive |} Fixture.world).
Proof.
  apply (failed_save_keeps_form Fixture.any_url Menu.path (Sample.write_fails "")
           Fixture.mandazi_key (Fixture.form (IntNum 4)) Fixture.world "");
    reflexivity.
Defined.

(** X22: the "Cancel" button of the menu form only closes the dialog:
    the item being edited and the form stay in the cells.  Opening the
    dialog again with "Add Menu Item" and submitting therefore saves an edit
    of that item and adds no row, whereas closing through [onOpenChange]
    resets the form. *)
Theorem menu_cancel_keeps_item_being_edited
    is_url message net g s w (item : Menu.Item) :
  let s' := MenuDialog.onOpenChange true (MenuDialog.cancel (Menu.handleEdit item s)) in
  Menu.editingItem s' = Some item ∧
  Menu.formData s' = Menu.formData (Menu.handleEdit item s) ∧
  dom (Db.menu_items (db (Menu.handleSubmit is_url message net g s' w).2))
    = dom (Db.menu_items (db w)) ∧
  Menu.editingItem (MenuDialog.onOpenChange false (Menu.handleEdit item s)) = None ∧
  Menu.formData (MenuDialog.onOpenChange false (Menu.handleEdit item s))
    = Menu.emptyForm.
Proof.
  intros s'. split_and!; try done.
  destruct (handleSubmit_editing_db is_url message net g s' w item eq_refl)
    as (f & _ & ->).
  apply dom_alter_L.
Qed.

(** * Properties of the order section *)

(** X23: the status filter keeps, in their order, exactly the orders
    whose status is the chosen one, and every order when the choice is
    "all"; filtering twice is filtering once, and "No orders found" is
    rendered exactly when no order passes. *)
Theorem filteredOrders_exact {Order} (status : Order → string)
    (filterStatus : string) (orders : list Order) :
  let shown := OrdersView.filteredOrders status filterStatus orders in
  (∀ o, o ∈ shown ↔ o ∈ orders ∧ (filterStatus = "all" ∨ status o = filterStatus)) ∧
  shown `sublist_of` orders ∧
  OrdersView.filteredOrders status filterStatus shown = shown ∧
  (OrdersView.noOrdersFound status filterStatus orders = true ↔
   ∀ o, o ∈ orders → filterStatus ≠ "all" ∧ status o ≠ filterStatus).
Proof.
  intros shown. subst shown. unfold OrdersView.noOrdersFound, OrdersView.filteredOrders.
  rewrite bool_decide_eq_true.
  case_bool_decide as Hall.
  - split_and!; try done.
    + intros o. split; [intros ?; split; [done|by left]|by intros [? _]].
    + rewrite length_zero_iff_nil. split.
      * intros ->. by intros o ?%elem_of_nil.
      * destruct orders as [|o l]; [done|]. intros Hno.
        destruct (Hno o) as [? _]; [left|done].
  - split_and!.
    + intros o. rewrite list_elem_of_filter. split.
      * intros [? ?]. split; [done|by right].
      * intros [? [?|?]]; [done|by split].
    + apply sublist_filter.
    + apply list_filter_filter_l. done.
    + rewrite length_zero_iff_nil. split.
      * intros Hnil o Ho. split; [done|]. intros Hst.
        by apply (filter_nil_not_elem_of (λ order, status order = filterStatus)
                    orders o Hnil Hst).
      * intros Hno. induction orders as [|o l IH]; [done|].
        rewrite filter_cons_False; [|apply Hno; left].
        apply IH. intros o' Ho'. apply Hno. by right.
Qed.

(** X24: [getStatusColor] gives the five statuses of the select five
    colours, except that "delivered" shares its grey with every status
    it does not know: two statuses of the select have the same colour only
    when they are the same, and a status has the grey exactly when it is
    not pending, preparing, ready or cancelled. *)
Theorem getStatusColor_tells_statuses_apart :
  (∀ a b, a ∈ OrdersView.statuses → b ∈ OrdersView.statuses →
          OrdersView.getStatusColor a = OrdersView.getStatusColor b → a = b) ∧
  (∀ status, OrdersView.getStatusColor status = OrdersView.getStatusColor "delivered"
             ↔ status ∉ ["pending"; "preparing"; "ready"; "cancelled"]).
Proof.
  split.
  - intros a b Ha Hb. unfold OrdersView.statuses in *.
    rewrite !elem_of_cons, elem_of_nil in Ha, Hb.
    destruct Ha as [->|[->|[->|[->|[->|[]]]]]],
             Hb as [->|[->|[->|[->|[->|[]]]]]]; by vm_compute.
  - intros status. rewrite !not_elem_of_cons.
    unfold OrdersView.getStatusColor at 1.
    repeat case_bool_decide; subst;
      (split; [intros Hcolour|intros (? & ? & ? & ? & _)]);
      try done; try (by vm_compute in Hcolour);
      split_and!; try done; apply not_elem_of_nil.
Qed.

(** X25: [updateOrderStatus] writes the [status] of one order and
    nothing else: [menu_items] (so the stock) and [inventory_logs] are never
    touched, other orders keep their status, and any status is accepted
    whatever the current one is.  When the service fails, the database is
    unchanged. *)
Theorem order_status_update_touches_only_that_order
    reply fetch_reply orderId newStatus w :
  let w' := Orders.updateOrderStatus reply fetch_reply orderId newStatus w in
  Db.menu_items (db w') = Db.menu_items (db w) ∧
  Db.inventory_logs (db w') = Db.inventory_logs (db w) ∧
  (∀ j, j ≠ orderId → Db.orders (db w') !! j = Db.orders (db w) !! j) ∧
  (reply = Served →
   Db.orders (db w') !! orderId = (λ _, newStatus) <$> Db.orders (db w) !! orderId) ∧
  (reply ≠ Served → db w' = db w).
Proof.
  intros w'. subst w'. unfold Orders.updateOrderStatus, Orders.fetchOrders.
  destruct reply as [|msg].
  - assert (∀ w0, db (match fetch_reply with
                      | Served => w0
                      | Failed _ => toast Orders.load_failed w0
                      end) = db w0) as -> by (intros; by destruct fetch_reply).
    simpl. split_and!; try done.
    + intros j Hj. by rewrite lookup_alter_ne.
    + intros _. by rewrite lookup_alter_eq.
  - split_and!; done.
Qed.

(** X26: no handler of the three screens writes [inventory_logs]: after
    any sequence of stock adjustments, form submissions, deletions and order
    status updates the ledger table is what it was at the start. *)
Theorem no_write_path_touches_the_ledger is_url message w (ps : list WritePath) :
  Db.inventory_logs (db (writes is_url message w ps)) = Db.inventory_logs (db w).
Proof.
  unfold writes. revert w. induction ps as [|p ps IH]; intros w; [done|].
  simpl. rewrite IH. destruct p as [net s|net g s|confirmed net i s|r1 r2 o st]; simpl.
  - apply handleAdjustment_inventory_logs.
  - destruct (handleSubmit_db is_url message net g s w)
      as [->|(z & _ & _ & _ & [(item & q & _ & ->)|(q & _ & _ & ->)])]; done.
  - unfold Menu.handleDelete. destruct confirmed; [|done]. simpl.
    destruct (Menu.write_reply net); [|done]. by rewrite fetchMenuItems_db.
  - unfold Orders.updateOrderStatus, Orders.fetchOrders.
    destruct r1; [|done]. by destruct r2.
Qed.

(** The filter on four sample orders, and a status change of one of two. *)
Example filteredOrders_example :
  OrdersView.filteredOrders snd "pending" Sample.orders
    = [("o1", "pending"); ("o3", "pending")] ∧
  OrdersView.filteredOrders snd "all" Sample.orders = Sample.orders ∧
  OrdersView.noOrdersFound snd "cancelled" Sample.orders = true.
Proof. split_and!; reflexivity. Qed.

Example updateOrderStatus_example :
  let w := Orders.updateOrderStatus Served Served "o1" "cancelled"
             Sample.world_with_orders in
  Db.orders (db w) !! "o1" = Some "cancelled" ∧
  Db.orders (db w) !! "o2" = Some "ready" ∧
  Db.menu_items (db w) = Db.menu_items Fixture.tables ∧
  title <$> toasts w = ["Order Updated"].
Proof. split_and!; reflexivity. Qed.
